(** * Session-guarded task list: a shallow embedding of the client

    The development follows the TypeScript sources file by file:

    - [AuthStore]        src/store/authStore.ts
    - [LoginPage]        src/app/login/page.tsx
    - [ProtectedLayout]  src/app/(protected)/layout.tsx
    - [ProtectedPage]    src/app/(protected)/page.tsx

    Event handlers are written in a state monad over an environment [Env]
    that holds the session store, the router, the toaster, the console, the
    log of HTTP requests and the component's own [useState] cells.  The
    remote API is an oracle: every handler takes the outcome of each
    [await axios...] as an argument, resolved or rejected, so that a
    [try / catch] is a [match] on that outcome. *)

From Stdlib Require Import String ZArith QArith Qround List Lia DecimalString.
From ExtLib Require Import Structures.Monad Data.Monads.StateMonad.
Import ListNotations.
Import MonadNotation.
Local Open Scope monad_scope.
Local Open Scope string_scope.
Local Open Scope Z_scope.

(** ** JavaScript values used by the sources

    A JavaScript string is a [string]; one character of the model stands
    for one UTF-16 code unit of the source, so that [String.length] is
    [.length].  Numbers that count pages and tasks are integers. *)
Module JS.

(** Truthiness of a [string | null]: [null] and the empty string are falsy. *)
Definition truthy (s : option string) : bool :=
  match s with
  | None => false
  | Some "" => false
  | Some _ => true
  end.

(** Truthiness of an object reference ([user], [editingTask]). *)
Definition truthyObj {A : Type} (o : option A) : bool :=
  match o with
  | None => false
  | Some _ => true
  end.

(** [a || b] where [a] is a possibly undefined string and [b] a string. *)
Definition orElse (a : option string) (b : string) : string :=
  if truthy a then match a with Some s => s | None => b end else b.

(** [n.toString()] for an integral number. *)
Definition Number_toString (n : Z) : string :=
  NilZero.string_of_int (Z.to_int n).

(** [Math.ceil(a / b)]: the quotient of two integral numbers is taken in
    the rationals, and rounded up.  (For integers below 2^53 the quotient
    in double precision rounds up to the same integer.) *)
Definition Math_ceil_div (a b : Z) : Z :=
  Qceiling (inject_Z a / inject_Z b).

(** [${x}] in a template literal, for [x : string | null]; [null] prints
    as "null". *)
Definition template (x : option string) : string :=
  match x with Some s => s | None => "null" end.

(** Template literal [`Bearer ${token}`]. *)
Definition bearer (token : option string) : string :=
  "Bearer " ++ template token.

(** [String.prototype.trim]: the white space that the code units of the
    model can hold is TAB, LF, VT, FF, CR, SPACE and NBSP. *)
Definition isWhiteSpace (c : Ascii.ascii) : bool :=
  existsb (Nat.eqb (Ascii.nat_of_ascii c)) [9; 10; 11; 12; 13; 32; 160]%nat.

Fixpoint trimStart (s : string) : string :=
  match s with
  | "" => ""
  | String c rest => if isWhiteSpace c then trimStart rest else s
  end.

Fixpoint trimEnd (s : string) : string :=
  match s with
  | "" => ""
  | String c rest =>
      match trimEnd rest with
      | "" => if isWhiteSpace c then "" else String c ""
      | kept => String c kept
      end
  end.

Definition trim (s : string) : string := trimEnd (trimStart s).

End JS.

(** ** src/store/authStore.ts *)
Module AuthStore.

Record User := mkUser { id : string; name : string; email : string }.

(** The data part of [AuthState]. *)
Record AuthState := mkAuth { token : option string; user : option User }.

(** The argument of zustand's [set]: an object with some of the fields.
    [None] is an absent field, [Some v] a field given the value [v]
    (which may itself be [null], that is [None]). *)
Record Partial := mkPartial {
  p_token : option (option string);
  p_user : option (option User)
}.

(** Shallow merge of a partial state into the current one. *)
Definition merge (p : Partial) (s : AuthState) : AuthState :=
  {| token := match p_token p with Some t => t | None => token s end;
     user := match p_user p with Some u => u | None => user s end |}.

(** The store under [persist]: the current state, and the writes made to
    [localStorage] (key and stored state), the latest first. *)
Record Store := mkStore {
  session : AuthState;
  localStorage : list (string * AuthState)
}.

Definition storageName : string := "auth-storage".

(** [set] merges, and the [persist] middleware stores the whole state
    under [storageName]. *)
Definition set (p : Partial) (s : Store) : Store :=
  let st := merge p (session s) in
  {| session := st; localStorage := (storageName, st) :: localStorage s |}.

(** [token: null, user: null] *)
Definition initial : AuthState := {| token := None; user := None |}.

(** [setToken: (token) => set({ token })] *)
Definition setToken (t : option string) : Store -> Store :=
  set {| p_token := Some t; p_user := None |}.

(** [setUser: (user) => set({ user })] *)
Definition setUser (u : option User) : Store -> Store :=
  set {| p_token := None; p_user := Some u |}.

(** [clearAuth: () => set({ token: null, user: null })] *)
Definition clearAuth : Store -> Store :=
  set {| p_token := Some None; p_user := Some None |}.

End AuthStore.

(** ** The browser side shared by the pages *)
Module Browser.
Import AuthStore.

Inductive Toast :=
| ToastSuccess (msg : string)
| ToastError (msg : string).

Inductive Method := GET | POST | PUT | DELETE.

(** Request bodies of the forms. *)
Record LoginFormValues := mkLogin { l_email : string; l_password : string }.

Inductive Status := CRIADO | ANDAMENTO | CONCLUIDO.

Record CreateTaskFormValues := mkCreate {
  c_title : string;
  c_description : option string
}.

Record UpdateTaskFormValues := mkUpdate {
  u_id : option string;
  u_title : option string;
  u_description : option string;
  u_status : option Status
}.

Inductive Body :=
| NoBody
| LoginBody (v : LoginFormValues)
| CreateBody (v : CreateTaskFormValues)
| UpdateBody (v : UpdateTaskFormValues).

(** One [axios] call.  The query of a URL built as [`${url}?${params}`] is
    kept as the list of pairs appended to the [URLSearchParams], in order. *)
Record Request := mkRequest {
  method : Method;
  url : string;
  query : list (string * string);
  authorization : option string;
  body : Body
}.

(** [error.response]: the HTTP status and [data?.message]. *)
Record ErrorResponse := mkErrorResponse {
  status : Z;
  message : option string
}.

(** What a rejected [axios] promise carries; [response] is undefined for
    a network failure. *)
Record AxiosError := mkAxiosError { response : option ErrorResponse }.

Inductive AxiosResult (A : Type) :=
| Resolved (data : A)
| Rejected (error : AxiosError).
Arguments Resolved {A} data.
Arguments Rejected {A} error.

(** [error.response?.data?.message] *)
Definition errorMessage (e : AxiosError) : option string :=
  match response e with
  | Some r => message r
  | None => None
  end.

(** [error.response?.status === 401] *)
Definition is401 (e : AxiosError) : bool :=
  match response e with
  | Some r => status r =? 401
  | None => false
  end.

(** The environment of a component with local state [L]. *)
Record Env (L : Type) := mkEnv {
  store : Store;
  pushed : list string;          (* router.push, latest first *)
  toasts : list Toast;           (* toast.success / toast.error, latest first *)
  consoleErrors : list string;   (* console.error labels, latest first *)
  requests : list Request;       (* axios calls, latest first *)
  local : L
}.
Arguments mkEnv {L}.
Arguments store {L}.
Arguments pushed {L}.
Arguments toasts {L}.
Arguments consoleErrors {L}.
Arguments requests {L}.
Arguments local {L}.

Section Actions.
Context {L : Type}.

Definition M := StateMonad.state (Env L).

Definition update (f : Env L -> Env L) : M unit :=
  mkState (fun e => (tt, f e)).

Definition reads {A : Type} (f : Env L -> A) : M A :=
  mkState (fun e => (f e, e)).

(** Final environment of a handler. *)
Definition exec {A : Type} (c : M A) (e : Env L) : Env L :=
  snd (runState c e).

Definition useToken : M (option string) := reads (fun e => token (session (store e))).
Definition useUser : M (option User) := reads (fun e => user (session (store e))).

Definition onStore (f : Store -> Store) : M unit :=
  update (fun e => mkEnv (f (store e)) (pushed e) (toasts e)
                         (consoleErrors e) (requests e) (local e)).

Definition router_push (path : string) : M unit :=
  update (fun e => mkEnv (store e) (path :: pushed e) (toasts e)
                         (consoleErrors e) (requests e) (local e)).

Definition toast (t : Toast) : M unit :=
  update (fun e => mkEnv (store e) (pushed e) (t :: toasts e)
                         (consoleErrors e) (requests e) (local e)).

Definition console_error (label : string) : M unit :=
  update (fun e => mkEnv (store e) (pushed e) (toasts e)
                         (label :: consoleErrors e) (requests e) (local e)).

(** [await axios...]: the request is logged, the outcome is the oracle's. *)
Definition axios {A : Type} (r : Request) (outcome : AxiosResult A)
  : M (AxiosResult A) :=
  update (fun e => mkEnv (store e) (pushed e) (toasts e)
                         (consoleErrors e) (r :: requests e) (local e)) ;;
  ret outcome.

Definition onLocal (f : L -> L) : M unit :=
  update (fun e => mkEnv (store e) (pushed e) (toasts e)
                         (consoleErrors e) (requests e) (f (local e))).

Definition useLocal {A : Type} (f : L -> A) : M A :=
  reads (fun e => f (local e)).

End Actions.
Arguments M L : clear implicits.

End Browser.

(** ** src/app/login/page.tsx *)
Module LoginPage.
Import AuthStore Browser.

(** [const [loading, setLoading] = useState(false)] *)
Record Local := mkLocal { loading : bool }.

Definition setLoading (b : bool) : M Local unit :=
  onLocal (fun _ => {| loading := b |}).

(** [response.data] of a successful login. *)
Record LoginResponse := mkLoginResponse {
  r_token : string;
  r_user : User
}.

(** The POST of [onSubmit]; it has no [Authorization] header. *)
Definition loginRequest (values : LoginFormValues) : Request :=
  {| method := POST; url := "http://localhost:3333/user/login";
     query := []; authorization := None; body := LoginBody values |}.

Definition onSubmit (values : LoginFormValues)
    (login : AxiosResult LoginResponse) : M Local unit :=
  setLoading true ;;
  r <- axios (loginRequest values) login ;;
  match r with
  | Resolved data =>
      toast (ToastSuccess "Login realizado com sucesso!") ;;
      onStore (setToken (Some (r_token data))) ;;
      onStore (setUser (Some (r_user data))) ;;
      router_push "/"
  | Rejected error =>
      toast (ToastError (JS.orElse (errorMessage error)
                                   "Erro ao fazer login. Tente novamente."))
  end ;;
  setLoading false.

(** [loginFormSchema]: the e-mail passes zod's [email()] check, here the
    parameter [isEmail], and the password has at least 6 characters. *)
Definition loginFormSchema (isEmail : string -> bool) (v : LoginFormValues)
  : option LoginFormValues :=
  if isEmail (l_email v) && (6 <=? String.length (l_password v))%nat
  then Some v else None.

(** [form.handleSubmit(onSubmit)] with [zodResolver(loginFormSchema)], on
    the values [values] of the form. *)
Definition form_onSubmit (isEmail : string -> bool) (values : LoginFormValues)
    (login : AxiosResult LoginResponse) : M Local unit :=
  match loginFormSchema isEmail values with
  | Some parsed => onSubmit parsed login
  | None => ret tt
  end.

(** [disabled={loading}] on the submit button. *)
Definition submitDisabled (e : Env Local) : bool := loading (local e).

End LoginPage.

(** ** src/app/register/page.tsx *)
Module RegisterPage.
Import AuthStore Browser.

Record RegisterFormValues := mkRegister {
  r_name : string;
  r_email : string;
  r_password : string
}.

Definition defaultValues : RegisterFormValues :=
  {| r_name := ""; r_email := ""; r_password := "" |}.

(** [registerFormSchema]: the name is trimmed and then has at least 3
    characters, the e-mail passes zod's [email()] check, here the parameter
    [isEmail], and the password has at least 6 characters.  Parsing gives
    the values with the trimmed name. *)
Definition registerFormSchema (isEmail : string -> bool)
    (v : RegisterFormValues) : option RegisterFormValues :=
  let name := JS.trim (r_name v) in
  if (3 <=? String.length name)%nat
     && isEmail (r_email v)
     && (6 <=? String.length (r_password v))%nat
  then Some {| r_name := name; r_email := r_email v;
               r_password := r_password v |}
  else None.

(** [loading], the values of the form, the labels given to [console.log]
    and the calls [axios.post(url, values)] of the page (URL and body), the
    latest first.  The calls are kept here, with their body of the type of
    this form; they carry no [Authorization] header. *)
Record Local := mkLocal {
  loading : bool;
  form : RegisterFormValues;
  consoleLog : list string;
  posted : list (string * RegisterFormValues)
}.

Definition setLoading (b : bool) : M Local unit :=
  onLocal (fun l => mkLocal b (form l) (consoleLog l) (posted l)).

Definition form_reset : M Local unit :=
  onLocal (fun l => mkLocal (loading l) defaultValues (consoleLog l) (posted l)).

Definition console_log (label : string) : M Local unit :=
  onLocal (fun l => mkLocal (loading l) (form l) (label :: consoleLog l)
                            (posted l)).

(** [await axios.post(url, values)] *)
Definition axios_post (url : string) (values : RegisterFormValues)
    (outcome : AxiosResult unit) : M Local (AxiosResult unit) :=
  onLocal (fun l => mkLocal (loading l) (form l) (consoleLog l)
                            ((url, values) :: posted l)) ;;
  ret outcome.

Definition onSubmit (values : RegisterFormValues)
    (registered : AxiosResult unit) : M Local unit :=
  setLoading true ;;
  r <- axios_post "http://localhost:3333/user/register" values registered ;;
  match r with
  | Resolved _ =>
      toast (ToastSuccess "Cadastro realizado com sucesso!") ;;
      console_log "Registration successful:" ;;
      form_reset
  | Rejected error =>
      toast (ToastError (JS.orElse (errorMessage error)
                                   "Erro ao cadastrar. Tente novamente."))
  end ;;
  setLoading false.

(** [form.handleSubmit(onSubmit)] with [zodResolver(registerFormSchema)]:
    the handler runs on the parsed values. *)
Definition form_onSubmit (isEmail : string -> bool)
    (registered : AxiosResult unit) : M Local unit :=
  values <- useLocal form ;;
  match registerFormSchema isEmail values with
  | Some parsed => onSubmit parsed registered
  | None => ret tt
  end.

(** [disabled={loading}] on the submit button. *)
Definition submitDisabled (e : Env Local) : bool := loading (local e).

End RegisterPage.

(** ** src/app/(protected)/layout.tsx *)
Module ProtectedLayout.
Import AuthStore Browser.

(** [const [loading, setLoading] = useState(true)] *)
Record Local := mkLocal { loading : bool }.

Definition setLoading (b : bool) : M Local unit :=
  onLocal (fun _ => {| loading := b |}).

(** The request of the guard for the profile. *)
Definition profileRequest (tok : option string) : Request :=
  {| method := GET; url := "http://localhost:3333/user/profile";
     query := []; authorization := Some (JS.bearer tok); body := NoBody |}.

Definition verifyAuth (profile : AxiosResult User) : M Local unit :=
  token <- useToken ;;
  user <- useUser ;;
  if negb (JS.truthy token) then
    router_push "/login" ;;
    toast (ToastError "Você precisa estar logado para acessar esta página.") ;;
    setLoading false
  else if JS.truthyObj user then
    setLoading false
  else
    r <- axios {| method := GET; url := "http://localhost:3333/user/profile";
                  query := []; authorization := Some (JS.bearer token);
                  body := NoBody |} profile ;;
    match r with
    | Resolved data =>
        onStore (setUser (Some data)) ;;
        setLoading false
    | Rejected error =>
        console_error "Erro ao buscar perfil do usuário:" ;;
        toast (ToastError "Sessão expirada ou inválida. Faça login novamente.") ;;
        onStore clearAuth ;;
        router_push "/login" ;;
        setLoading false
    end.

(** What the component renders. *)
Inductive View := Loading | Children | Nothing.

Definition render (e : Env Local) : View :=
  if loading (local e) then Loading
  else if JS.truthy (token (session (store e)))
          && JS.truthyObj (user (session (store e)))
       then Children
       else Nothing.

End ProtectedLayout.


(** ** src/app/(protected)/page.tsx *)
Module ProtectedPage.
Import AuthStore Browser.

Record Task := mkTask {
  t_id : string;
  t_title : string;
  t_description : string;
  t_status : Status;
  t_userId : string;
  t_createdAt : string;
  t_updatedAt : string
}.

(** The string value of a member of [enum Status]. *)
Definition Status_value (s : Status) : string :=
  match s with
  | CRIADO => "CRIADO"
  | ANDAMENTO => "ANDAMENTO"
  | CONCLUIDO => "CONCLUIDO"
  end.

(** The type [Status | 'all'] of the status filter. *)
Inductive Filter :=
| all
| only (s : Status).

Definition Filter_value (f : Filter) : string :=
  match f with
  | all => "all"
  | only s => Status_value s
  end.

(** The [useState] cells of the component and the values of its two forms. *)
Record Local := mkLocal {
  tasks : list Task;
  loadingTasks : bool;
  isCreating : bool;
  isEditing : bool;
  editingTask : option Task;
  isConfirmingDelete : bool;
  taskToDelete : option string;
  currentPage : Z;
  pageSize : Z;
  totalTasks : Z;
  searchTerm : string;
  filterStatus : Filter;
  createTaskForm : CreateTaskFormValues;
  updateTaskForm : UpdateTaskFormValues
}.

(** Initial values of the cells, and [defaultValues] of the forms. *)
Definition createTaskForm_defaultValues : CreateTaskFormValues :=
  {| c_title := ""; c_description := Some "" |}.

Definition updateTaskForm_defaultValues : UpdateTaskFormValues :=
  {| u_id := None; u_title := Some ""; u_description := Some "";
     u_status := Some CRIADO |}.

Definition initialLocal : Local :=
  {| tasks := []; loadingTasks := true; isCreating := false;
     isEditing := false; editingTask := None; isConfirmingDelete := false;
     taskToDelete := None; currentPage := 1; pageSize := 10; totalTasks := 0;
     searchTerm := ""; filterStatus := all;
     createTaskForm := createTaskForm_defaultValues;
     updateTaskForm := updateTaskForm_defaultValues |}.

Section Setters.
Variable l : Local.

Definition with_tasks (v : list Task) : Local :=
  mkLocal v (loadingTasks l) (isCreating l) (isEditing l) (editingTask l)
          (isConfirmingDelete l) (taskToDelete l) (currentPage l) (pageSize l)
          (totalTasks l) (searchTerm l) (filterStatus l) (createTaskForm l)
          (updateTaskForm l).

Definition with_loadingTasks (v : bool) : Local :=
  mkLocal (tasks l) v (isCreating l) (isEditing l) (editingTask l)
          (isConfirmingDelete l) (taskToDelete l) (currentPage l) (pageSize l)
          (totalTasks l) (searchTerm l) (filterStatus l) (createTaskForm l)
          (updateTaskForm l).

Definition with_isCreating (v : bool) : Local :=
  mkLocal (tasks l) (loadingTasks l) v (isEditing l) (editingTask l)
          (isConfirmingDelete l) (taskToDelete l) (currentPage l) (pageSize l)
          (totalTasks l) (searchTerm l) (filterStatus l) (createTaskForm l)
          (updateTaskForm l).

Definition with_isEditing (v : bool) : Local :=
  mkLocal (tasks l) (loadingTasks l) (isCreating l) v (editingTask l)
          (isConfirmingDelete l) (taskToDelete l) (currentPage l) (pageSize l)
          (totalTasks l) (searchTerm l) (filterStatus l) (createTaskForm l)
          (updateTaskForm l).

Definition with_editingTask (v : option Task) : Local :=
  mkLocal (tasks l) (loadingTasks l) (isCreating l) (isEditing l) v
          (isConfirmingDelete l) (taskToDelete l) (currentPage l) (pageSize l)
          (totalTasks l) (searchTerm l) (filterStatus l) (createTaskForm l)
          (updateTaskForm l).

Definition with_isConfirmingDelete (v : bool) : Local :=
  mkLocal (tasks l) (loadingTasks l) (isCreating l) (isEditing l)
          (editingTask l) v (taskToDelete l) (currentPage l) (pageSize l)
          (totalTasks l) (searchTerm l) (filterStatus l) (createTaskForm l)
          (updateTaskForm l).

Definition with_taskToDelete (v : option string) : Local :=
  mkLocal (tasks l) (loadingTasks l) (isCreating l) (isEditing l)
          (editingTask l) (isConfirmingDelete l) v (currentPage l) (pageSize l)
          (totalTasks l) (searchTerm l) (filterStatus l) (createTaskForm l)
          (updateTaskForm l).

Definition with_currentPage (v : Z) : Local :=
  mkLocal (tasks l) (loadingTasks l) (isCreating l) (isEditing l)
          (editingTask l) (isConfirmingDelete l) (taskToDelete l) v (pageSize l)
          (totalTasks l) (searchTerm l) (filterStatus l) (createTaskForm l)
          (updateTaskForm l).

Definition with_totalTasks (v : Z) : Local :=
  mkLocal (tasks l) (loadingTasks l) (isCreating l) (isEditing l)
          (editingTask l) (isConfirmingDelete l) (taskToDelete l)
          (currentPage l) (pageSize l) v (searchTerm l) (filterStatus l)
          (createTaskForm l) (updateTaskForm l).

Definition with_searchTerm (v : string) : Local :=
  mkLocal (tasks l) (loadingTasks l) (isCreating l) (isEditing l)
          (editingTask l) (isConfirmingDelete l) (taskToDelete l)
          (currentPage l) (pageSize l) (totalTasks l) v (filterStatus l)
          (createTaskForm l) (updateTaskForm l).

Definition with_filterStatus (v : Filter) : Local :=
  mkLocal (tasks l) (loadingTasks l) (isCreating l) (isEditing l)
          (editingTask l) (isConfirmingDelete l) (taskToDelete l)
          (currentPage l) (pageSize l) (totalTasks l) (searchTerm l) v
          (createTaskForm l) (updateTaskForm l).

Definition with_createTaskForm (v : CreateTaskFormValues) : Local :=
  mkLocal (tasks l) (loadingTasks l) (isCreating l) (isEditing l)
          (editingTask l) (isConfirmingDelete l) (taskToDelete l)
          (currentPage l) (pageSize l) (totalTasks l) (searchTerm l)
          (filterStatus l) v (updateTaskForm l).

Definition with_updateTaskForm (v : UpdateTaskFormValues) : Local :=
  mkLocal (tasks l) (loadingTasks l) (isCreating l) (isEditing l)
          (editingTask l) (isConfirmingDelete l) (taskToDelete l)
          (currentPage l) (pageSize l) (totalTasks l) (searchTerm l)
          (filterStatus l) (createTaskForm l) v.

End Setters.

Definition setTasks v : M Local unit := onLocal (fun l => with_tasks l v).
Definition setLoadingTasks v : M Local unit := onLocal (fun l => with_loadingTasks l v).
Definition setIsCreating v : M Local unit := onLocal (fun l => with_isCreating l v).
Definition setIsEditing v : M Local unit := onLocal (fun l => with_isEditing l v).
Definition setEditingTask v : M Local unit := onLocal (fun l => with_editingTask l v).
Definition setIsConfirmingDelete v : M Local unit :=
  onLocal (fun l => with_isConfirmingDelete l v).
Definition setTaskToDelete v : M Local unit := onLocal (fun l => with_taskToDelete l v).
Definition setTotalTasks v : M Local unit := onLocal (fun l => with_totalTasks l v).
Definition setSearchTerm v : M Local unit := onLocal (fun l => with_searchTerm l v).
Definition setFilterStatus v : M Local unit := onLocal (fun l => with_filterStatus l v).

(** [setCurrentPage] is used both with a value and with an updater
    [(prev) => ...]; the value form is the constant updater. *)
Definition setCurrentPage (f : Z -> Z) : M Local unit :=
  onLocal (fun l => with_currentPage l (f (currentPage l))).

(** [form.reset()] puts the default values back; [form.reset(v)] puts [v]. *)
Definition createTaskForm_reset : M Local unit :=
  onLocal (fun l => with_createTaskForm l createTaskForm_defaultValues).

Definition updateTaskForm_reset (v : UpdateTaskFormValues) : M Local unit :=
  onLocal (fun l => with_updateTaskForm l v).

(** *** URLSearchParams *)
Definition URLSearchParams := list (string * string).

Definition append (k v : string) (ps : URLSearchParams) : URLSearchParams :=
  (ps ++ [(k, v)])%list.

Fixpoint get (k : string) (ps : URLSearchParams) : option string :=
  match ps with
  | [] => None
  | (k', v) :: rest => if String.eqb k k' then Some v else get k rest
  end.

Definition has (k : string) (ps : URLSearchParams) : bool :=
  match get k ps with
  | Some _ => true
  | None => false
  end.

(** The parameters [fetchTasks] builds from the query state. *)
Definition listParams (l : Local) : URLSearchParams :=
  let params := [] in
  let params := append "page" (JS.Number_toString (currentPage l)) params in
  let params := append "pageSize" (JS.Number_toString (pageSize l)) params in
  let params :=
    if JS.truthy (Some (searchTerm l))
    then append "search" (searchTerm l) params
    else params in
  if JS.truthy (Some (Filter_value (filterStatus l)))
     && negb (String.eqb (Filter_value (filterStatus l)) "all")
  then append "status" (Filter_value (filterStatus l)) params
  else params.

(** [response.data] of the list endpoint: [items] and
    [pagination.totalItems]. *)
Record ListResponse := mkListResponse {
  items : list Task;
  totalItems : Z
}.

Definition listRequest (token : option string) (l : Local) : Request :=
  {| method := GET; url := "http://localhost:3333/task";
     query := listParams l; authorization := Some (JS.bearer token);
     body := NoBody |}.

Definition fetchTasks (listing : AxiosResult ListResponse) : M Local unit :=
  token <- useToken ;;
  if negb (JS.truthy token) then
    setLoadingTasks false
  else
    setLoadingTasks true ;;
    l <- useLocal (fun l => l) ;;
    r <- axios (listRequest token l) listing ;;
    match r with
    | Resolved data =>
        setTasks (items data) ;;
        setTotalTasks (totalItems data)
    | Rejected error =>
        console_error "Erro ao buscar tarefas:" ;;
        toast (ToastError (JS.orElse (errorMessage error)
                                     "Erro ao carregar tarefas.")) ;;
        if is401 error then
          onStore clearAuth ;;
          router_push "/login"
        else ret tt
    end ;;
    setLoadingTasks false.

(** The effect that runs [fetchTasks] once the user is loaded. *)
Definition useEffect_fetchTasks (listing : AxiosResult ListResponse)
  : M Local unit :=
  user <- useUser ;;
  if negb (JS.truthyObj user) then ret tt else fetchTasks listing.


Definition handleLogout : M Local unit :=
  onStore clearAuth ;;
  router_push "/login".

(** *** Creating a task *)


(** The POST of [handleCreateTask]. *)
Definition createRequest (tok : option string) (values : CreateTaskFormValues)
  : Request :=
  {| method := POST; url := "http://localhost:3333/task"; query := [];
     authorization := Some (JS.bearer tok); body := CreateBody values |}.

Definition handleCreateTask (values : CreateTaskFormValues)
    (created : AxiosResult unit) (listing : AxiosResult ListResponse)
  : M Local unit :=
  token <- useToken ;;
  r <- axios (createRequest token values) created ;;
  match r with
  | Resolved _ =>
      toast (ToastSuccess "Tarefa criada com sucesso!") ;;
      createTaskForm_reset ;;
      setIsCreating false ;;
      fetchTasks listing
  | Rejected error =>
      console_error "Erro ao criar tarefa:" ;;
      toast (ToastError (JS.orElse (errorMessage error)
                                   "Erro ao criar tarefa."))
  end.


(** *** Editing a task *)
Definition handleEditTask (task : Task) : M Local unit :=
  setEditingTask (Some task) ;;
  updateTaskForm_reset {| u_id := Some (t_id task);
                          u_title := Some (t_title task);
                          u_description := Some (t_description task);
                          u_status := Some (t_status task) |} ;;
  setIsEditing true.

(** The PUT of [handleUpdateTask]. *)
Definition updateRequest (tok : option string) (task : Task)
    (values : UpdateTaskFormValues) : Request :=
  {| method := PUT; url := "http://localhost:3333/task/" ++ t_id task;
     query := []; authorization := Some (JS.bearer tok);
     body := UpdateBody values |}.

Definition handleUpdateTask (values : UpdateTaskFormValues)
    (updated : AxiosResult unit) (listing : AxiosResult ListResponse)
  : M Local unit :=
  editing <- useLocal editingTask ;;
  match editing with
  | None => ret tt
  | Some task =>
      token <- useToken ;;
      r <- axios (updateRequest token task values) updated ;;
      match r with
      | Resolved _ =>
          toast (ToastSuccess "Tarefa atualizada com sucesso!") ;;
          setIsEditing false ;;
          setEditingTask None ;;
          fetchTasks listing
      | Rejected error =>
          console_error "Erro ao atualizar tarefa:" ;;
          toast (ToastError (JS.orElse (errorMessage error)
                                       "Erro ao atualizar tarefa."))
      end
  end.

(** *** Deleting a task *)
Definition handleDeleteConfirmation (taskId : string) : M Local unit :=
  setTaskToDelete (Some taskId) ;;
  setIsConfirmingDelete true.

(** The DELETE of [handleDeleteTask]. *)
Definition deleteRequest (tok : option string) (taskId : string) : Request :=
  {| method := DELETE; url := "http://localhost:3333/task/" ++ taskId;
     query := []; authorization := Some (JS.bearer tok); body := NoBody |}.

Definition handleDeleteTask
    (deleted : AxiosResult unit) (listing : AxiosResult ListResponse)
  : M Local unit :=
  target <- useLocal taskToDelete ;;
  if negb (JS.truthy target) then ret tt
  else
    token <- useToken ;;
    r <- axios (deleteRequest token (JS.template target)) deleted ;;
    match r with
    | Resolved _ =>
        toast (ToastSuccess "Tarefa excluída com sucesso!") ;;
        setIsConfirmingDelete false ;;
        setTaskToDelete None ;;
        fetchTasks listing
    | Rejected error =>
        console_error "Erro ao excluir tarefa:" ;;
        toast (ToastError (JS.orElse (errorMessage error)
                                     "Erro ao excluir tarefa."))
    end.

(** *** Pagination *)

(** [const totalPages = Math.ceil(totalTasks / pageSize)] *)
Definition totalPages (l : Local) : Z :=
  JS.Math_ceil_div (totalTasks l) (pageSize l).

(** The block of pagination controls sits in the last branch of
    [loadingTasks ? ... : tasks.length === 0 ? ... : ...], under
    [totalPages > 1 && ...]. *)
Definition paginationRendered (l : Local) : bool :=
  if loadingTasks l then false
  else if (List.length (tasks l) =? 0)%nat then false
  else 1 <? totalPages l.

(** The properties that disable a control. *)
Record ControlProps := mkControlProps {
  ariaDisabled : bool;
  tabIndex : option Z;
  className : option string
}.

Definition PaginationPrevious_onClick : M Local unit :=
  setCurrentPage (fun prev => Z.max 1 (prev - 1)).

Definition PaginationPrevious_props (l : Local) : ControlProps :=
  {| ariaDisabled := currentPage l =? 1;
     tabIndex := if currentPage l =? 1 then Some (-1) else None;
     className := if currentPage l =? 1
                  then Some "pointer-events-none opacity-50" else None |}.

(** The closure of the next control holds the [totalPages] of the render
    in which it was created. *)
Definition PaginationNext_onClick (rendered : Local) : M Local unit :=
  setCurrentPage (fun prev => Z.min (totalPages rendered) (prev + 1)).

Definition PaginationNext_props (l : Local) : ControlProps :=
  {| ariaDisabled := currentPage l =? totalPages l;
     tabIndex := if currentPage l =? totalPages l then Some (-1) else None;
     className := if currentPage l =? totalPages l
                  then Some "pointer-events-none opacity-50" else None |}.


(** A control is disabled when it is marked so for assistive technology,
    taken out of the tab order and closed to pointer events. *)
Definition disabled (p : ControlProps) : bool :=
  ariaDisabled p
  && match tabIndex p with Some t => t =? -1 | None => false end
  && match className p with
     | Some c => String.eqb c "pointer-events-none opacity-50"
     | None => false
     end.




(** What the task section shows: [loadingTasks ? ... : tasks.length === 0
    ? ... : table]. *)
Inductive TaskSection := LoadingTasks | NoTasks | TaskTable.

Definition taskSection (l : Local) : TaskSection :=
  if loadingTasks l then LoadingTasks
  else if (List.length (tasks l) =? 0)%nat then NoTasks
  else TaskTable.

(** [updateTaskSchema]: the id passes zod's [uuid()] check, here the
    parameter [isUuid]; the title, when there is one, has at least 3
    characters; description and status are optional. *)
Definition updateTaskSchema (isUuid : string -> bool)
    (v : UpdateTaskFormValues) : option UpdateTaskFormValues :=
  match u_id v with
  | Some i =>
      if isUuid i
         && match u_title v with
            | Some t => (3 <=? String.length t)%nat
            | None => true
            end
      then Some v else None
  | None => None
  end.

(** [updateTaskForm.handleSubmit(handleUpdateTask)] with the resolver
    [zodResolver(updateTaskSchema)]. *)
Definition updateTaskForm_onSubmit (isUuid : string -> bool)
    (updated : AxiosResult unit) (listing : AxiosResult ListResponse)
  : M Local unit :=
  values <- useLocal updateTaskForm ;;
  match updateTaskSchema isUuid values with
  | Some parsed => handleUpdateTask parsed updated listing
  | None => ret tt
  end.

End ProtectedPage.

(** * Notions used by the statements *)
Module Statements.
Import AuthStore Browser ProtectedPage.

(** The environment once a POST has resolved and the dialog is closed,
    before the list is fetched again. *)
Definition created_and_closed (e : Env Local) (values : CreateTaskFormValues)
  : Env Local :=
  mkEnv (store e) (pushed e)
        (ToastSuccess "Tarefa criada com sucesso!" :: toasts e)
        (consoleErrors e)
        (createRequest (token (session (store e))) values :: requests e)
        (with_isCreating
           (with_createTaskForm (local e) createTaskForm_defaultValues)
           false).

(** The page after a click on the previous and on the next control. *)
Definition previousPage (e : Env Local) : Z :=
  currentPage (local (exec PaginationPrevious_onClick e)).

Definition nextPage (e : Env Local) : Z :=
  currentPage (local (exec (PaginationNext_onClick (local e)) e)).

(** The sentence of the specification on a request [r] sent for the query
    state [l]: no status under [all], the status otherwise, and the page,
    the page size and the search term in every case. *)
Definition carries_whole_query (l : Local) (r : Request) : Prop :=
  (filterStatus l = all -> has "status" (query r) = false)
  /\ (forall s, filterStatus l = only s ->
                get "status" (query r) = Some (Status_value s))
  /\ has "page" (query r) = true
  /\ has "pageSize" (query r) = true
  /\ has "search" (query r) = true.

(** A mutation of the store, and a sequence of them, the first applied
    first. *)
Inductive Mutation :=
| SetToken (t : option string)
| SetUser (u : option User)
| ClearAuth.

Definition mutate (s : Store) (m : Mutation) : Store :=
  match m with
  | SetToken t => setToken t s
  | SetUser u => setUser u s
  | ClearAuth => clearAuth s
  end.

Definition mutations (ms : list Mutation) (s : Store) : Store :=
  List.fold_left mutate ms s.

(** Going from one page to another: the browser side stays, the component
    mounted starts from its own initial cells. *)
Definition mount {L L' : Type} (cells : L') (e : Env L) : Env L' :=
  mkEnv (store e) (pushed e) (toasts e) (consoleErrors e) (requests e) cells.

(** One click on a control, each on the page as rendered at that time. *)
Definition clickPrevious (e : Env Local) : Env Local :=
  exec PaginationPrevious_onClick e.

Definition clickNext (e : Env Local) : Env Local :=
  exec (PaginationNext_onClick (local e)) e.


(** The state of the guard, read off what it renders. *)
Definition authorized (e : Env ProtectedLayout.Local) : bool :=
  match ProtectedLayout.render e with
  | ProtectedLayout.Children => true
  | _ => false
  end.

(** Whether a request resolved. *)
Definition resolved {A : Type} (r : AxiosResult A) : bool :=
  match r with
  | Resolved _ => true
  | Rejected _ => false
  end.

(** White space at the ends of a string. *)
Fixpoint allWhite (s : string) : bool :=
  match s with
  | "" => true
  | String c rest => JS.isWhiteSpace c && allWhite rest
  end.

Definition firstChar (s : string) : option Ascii.ascii :=
  match s with
  | "" => None
  | String c _ => Some c
  end.

Fixpoint lastChar (s : string) : option Ascii.ascii :=
  match s with
  | "" => None
  | String c "" => Some c
  | String _ rest => lastChar rest
  end.

Definition isWhite (c : option Ascii.ascii) : bool :=
  match c with
  | Some c => JS.isWhiteSpace c
  | None => false
  end.

(** The cells that [fetchTasks] never writes. *)
Definition untouched_by_fetch (l l' : Local) : Prop :=
  isCreating l' = isCreating l
  /\ isEditing l' = isEditing l
  /\ editingTask l' = editingTask l
  /\ isConfirmingDelete l' = isConfirmingDelete l
  /\ taskToDelete l' = taskToDelete l
  /\ currentPage l' = currentPage l
  /\ pageSize l' = pageSize l
  /\ searchTerm l' = searchTerm l
  /\ filterStatus l' = filterStatus l
  /\ createTaskForm l' = createTaskForm l
  /\ updateTaskForm l' = updateTaskForm l.

End Statements.

(** * Concrete sessions and pages *)
Module Scenario.
Import AuthStore Browser ProtectedPage.

(** The user and the task of the examples of the specification. *)
Definition someUser : User :=
  {| id := "u1"; name := "A"; email := "a@b.com" |}.

(** The page as first mounted for a logged-in user. *)
Definition mounted : Env Local :=
  mkEnv (mkStore (mkAuth (Some "t1") (Some someUser)) []) [] [] [] []
        initialLocal.

Definition someTask : Task :=
  {| t_id := "id123"; t_title := "Buy milk"; t_description := "";
     t_status := CRIADO; t_userId := "u1"; t_createdAt := "";
     t_updatedAt := "" |}.

(** The page with one task listed, which is both being edited and selected
    for deletion. *)
Definition busy : Env Local :=
  mkEnv (store mounted) [] [] [] []
        (with_taskToDelete
           (with_editingTask
              (with_tasks (with_loadingTasks initialLocal false) [someTask])
              (Some someTask))
           (Some "id123")).


(** Page 3 of 3, with 25 tasks in pages of 10. *)
Definition lastPage : Env Local :=
  mkEnv (store mounted) [] [] [] []
        (with_currentPage
           (with_totalTasks
              (with_tasks (with_loadingTasks initialLocal false) [someTask])
              25)
           3).

(** The rejection with HTTP status 401. *)
Definition unauthorized : AxiosError :=
  {| response := Some {| status := 401; message := None |} |}.

(** The rejection of a server that answers 500 with a message. *)
Definition serverError : AxiosError :=
  {| response := Some {| status := 500; message := Some "Internal error" |} |}.

(** A check of e-mail addresses for the examples: an at sign after at
    least one character. *)
Fixpoint hasAt (s : string) : bool :=
  match s with
  | "" => false
  | String c rest => Nat.eqb (Ascii.nat_of_ascii c) 64 || hasAt rest
  end.

Definition looksLikeEmail (s : string) : bool :=
  match s with
  | "" => false
  | String _ rest => hasAt rest
  end.

(** A check of ids for the examples: 36 characters. *)
Definition hasUuidLength (s : string) : bool :=
  (String.length s =? 36)%nat.

(** A task whose id has the shape of a UUID. *)
Definition storedTask : Task :=
  {| t_id := "3f2b8c1e-5d4a-4b6f-9e7a-0c1d2e3f4a5b"; t_title := "Buy milk";
     t_description := "2 litres"; t_status := ANDAMENTO; t_userId := "u1";
     t_createdAt := "2024-01-01"; t_updatedAt := "2024-01-02" |}.

End Scenario.

(** * Properties *)

Import AuthStore Browser Statements Scenario.

(** ** Session store *)

Lemma set_session (p : Partial) (s : Store) :
  session (set p s) = merge p (session s).
Proof. reflexivity. Qed.

Lemma set_persists (p : Partial) (s : Store) :
  localStorage (set p s) = (storageName, session (set p s)) :: localStorage s.
Proof. reflexivity. Qed.

(** C9: [setToken] changes the token and keeps the user, [setUser] changes
    the user and keeps the token, and [clearAuth] makes both null by one
    call of [set], hence one write of the cleared state to storage. *)
Theorem C9_store_frame (s : Store) (t : option string) (u : option User) :
  (token (session (setToken t s)) = t
   /\ user (session (setToken t s)) = user (session s))
  /\ (user (session (setUser u s)) = u
      /\ token (session (setUser u s)) = token (session s))
  /\ (session (clearAuth s) = {| token := None; user := None |}
      /\ clearAuth s = set {| p_token := Some None; p_user := Some None |} s
      /\ localStorage (clearAuth s)
         = (storageName, {| token := None; user := None |}) :: localStorage s).
Proof.
  repeat split.
Qed.

(** ** Login form *)

(** C3: after [onSubmit] on a resolved login, the store holds the token and
    the user of the response, and the one navigation is to ["/"]. *)
Theorem C3_login_success (e : Env LoginPage.Local) (values : LoginFormValues)
    (resp : LoginPage.LoginResponse) :
  let e' := exec (LoginPage.onSubmit values (Resolved resp)) e in
  token (session (store e')) = Some (LoginPage.r_token resp)
  /\ user (session (store e')) = Some (LoginPage.r_user resp)
  /\ pushed e' = "/" :: pushed e.
Proof.
  destruct e as [st ps ts cs rs lo]. cbn. repeat split.
Qed.

(** ** Session guard *)

(** C4: with a token and no cached user, a rejected profile request leaves
    the session cleared and the one navigation is to ["/login"]; the guard
    then renders nothing. *)
Theorem C4_guard_profile_failure (e : Env ProtectedLayout.Local)
    (err : AxiosError) :
  JS.truthy (token (session (store e))) = true ->
  user (session (store e)) = None ->
  let e' := exec (ProtectedLayout.verifyAuth (Rejected err)) e in
  session (store e') = {| token := None; user := None |}
  /\ pushed e' = "/login" :: pushed e
  /\ requests e' = ProtectedLayout.profileRequest (token (session (store e))) :: requests e
  /\ toasts e'
     = ToastError "Sessão expirada ou inválida. Faça login novamente."
       :: toasts e
  /\ ProtectedLayout.render e' = ProtectedLayout.Nothing.
Proof.
  destruct e as [[[tok usr] ls] ps ts cs rs lo]. cbn.
  intros Htok Husr. subst usr.
  destruct tok as [[|c t]|]; try discriminate Htok.
  cbn. repeat split.
Qed.

Lemma C4_guard_profile_failure_witness :
  let e := mkEnv (mkStore (mkAuth (Some "t1") None) []) [] [] [] []
                 (ProtectedLayout.mkLocal true) in
  let e' := exec (ProtectedLayout.verifyAuth
                    (Rejected (mkAxiosError (Some (mkErrorResponse 500 None))))) e in
  session (store e') = {| token := None; user := None |}
  /\ pushed e' = ["/login"].
Proof.
  pose proof (C4_guard_profile_failure
                (mkEnv (mkStore (mkAuth (Some "t1") None) []) [] [] [] []
                       (ProtectedLayout.mkLocal true))
                (mkAxiosError (Some (mkErrorResponse 500 None)))
                eq_refl eq_refl) as H.
  cbv zeta in H. destruct H as (H1 & H2 & _). split; [exact H1 | exact H2].
Defined.

(** ** Task list: fetching *)

Import ProtectedPage.

(** Without a usable token [fetchTasks] only lowers the loading flag. *)
Lemma fetchTasks_falsy (e : Env Local) (listing : AxiosResult ListResponse) :
  JS.truthy (token (session (store e))) = false ->
  exec (fetchTasks listing) e
  = mkEnv (store e) (pushed e) (toasts e) (consoleErrors e) (requests e)
          (with_loadingTasks (local e) false).
Proof.
  destruct e as [[[tok usr] sto] ps ts cs rs lo]. cbn. intros H.
  destruct tok as [[|c s]|]; try discriminate H; reflexivity.
Qed.

(** A resolved list request replaces the tasks and the total. *)
Lemma fetchTasks_resolved (e : Env Local) (data : ListResponse) :
  JS.truthy (token (session (store e))) = true ->
  exec (fetchTasks (Resolved data)) e
  = mkEnv (store e) (pushed e) (toasts e) (consoleErrors e)
          (listRequest (token (session (store e)))
                       (with_loadingTasks (local e) true) :: requests e)
          (with_loadingTasks
             (with_totalTasks
                (with_tasks (with_loadingTasks (local e) true) (items data))
                (totalItems data))
             false).
Proof.
  destruct e as [[[tok usr] sto] ps ts cs rs lo]. cbn. intros H.
  destruct tok as [[|c s]|]; try discriminate H; reflexivity.
Qed.

(** A rejected list request: a toast, and on 401 the session is cleared
    and the router goes to the login view. *)
Lemma fetchTasks_rejected (e : Env Local) (err : AxiosError) :
  JS.truthy (token (session (store e))) = true ->
  exec (fetchTasks (Rejected err)) e
  = mkEnv (if is401 err then clearAuth (store e) else store e)
          (if is401 err then "/login" :: pushed e else pushed e)
          (ToastError (JS.orElse (errorMessage err) "Erro ao carregar tarefas.")
             :: toasts e)
          ("Erro ao buscar tarefas:" :: consoleErrors e)
          (listRequest (token (session (store e)))
                       (with_loadingTasks (local e) true) :: requests e)
          (with_loadingTasks (with_loadingTasks (local e) true) false).
Proof.
  destruct e as [[[tok usr] sto] ps ts cs rs lo]. cbn. intros H.
  destruct tok as [[|c s]|]; try discriminate H.
  cbn. destruct (is401 err); reflexivity.
Qed.

(** C10: with a null token [fetchTasks] sends nothing, keeps the session,
    the router, the tasks and the total, and lowers the loading flag. *)
Theorem C10_fetchTasks_null_token (e : Env Local)
    (listing : AxiosResult ListResponse) :
  token (session (store e)) = None ->
  let e' := exec (fetchTasks listing) e in
  requests e' = requests e
  /\ store e' = store e
  /\ pushed e' = pushed e
  /\ tasks (local e') = tasks (local e)
  /\ totalTasks (local e') = totalTasks (local e)
  /\ loadingTasks (local e') = false
  /\ e' = mkEnv (store e) (pushed e) (toasts e) (consoleErrors e)
                (requests e) (with_loadingTasks (local e) false).
Proof.
  intros H e'. subst e'.
  rewrite fetchTasks_falsy by (rewrite H; reflexivity).
  repeat split.
Qed.

Lemma C10_fetchTasks_null_token_witness :
  let e := mkEnv (mkStore (mkAuth None None) []) [] [] [] [] initialLocal in
  let e' := exec (fetchTasks (Resolved (mkListResponse [] 7))) e in
  requests e' = [] /\ loadingTasks (local e') = false
  /\ totalTasks (local e') = 0.
Proof.
  pose proof (C10_fetchTasks_null_token
                (mkEnv (mkStore (mkAuth None None) []) [] [] [] [] initialLocal)
                (Resolved (mkListResponse [] 7)) eq_refl) as H.
  cbv zeta in H. destruct H as (H1 & _ & _ & _ & H5 & H6 & _).
  split; [exact H1 | split; [exact H6 | exact H5]].
Defined.

(** ** Task list: the query of the list request *)

(** The query, written out: page and page size, then the search term when
    it is not empty, then the status unless the filter is [all]. *)
Lemma listParams_eq (l : Local) :
  listParams l
  = ([("page", JS.Number_toString (currentPage l));
      ("pageSize", JS.Number_toString (pageSize l))]
     ++ (match searchTerm l with
         | "" => []
         | _ => [("search", searchTerm l)]
         end)
     ++ (match filterStatus l with
         | all => []
         | only s => [("status", Status_value s)]
         end))%list.
Proof.
  unfold listParams.
  destruct (searchTerm l) as [|c s]; destruct (filterStatus l) as [|[]];
    reflexivity.
Qed.

Lemma listParams_get (l : Local) :
  get "page" (listParams l) = Some (JS.Number_toString (currentPage l))
  /\ get "pageSize" (listParams l) = Some (JS.Number_toString (pageSize l))
  /\ get "search" (listParams l)
     = match searchTerm l with "" => None | _ => Some (searchTerm l) end
  /\ get "status" (listParams l)
     = match filterStatus l with
       | all => None
       | only s => Some (Status_value s)
       end.
Proof.
  rewrite listParams_eq.
  destruct (searchTerm l) as [|c s]; destruct (filterStatus l) as [|[]];
    repeat split.
Qed.

(** [fetchTasks] sends exactly one request when the token is usable. *)
Lemma fetchTasks_request (e : Env Local) (listing : AxiosResult ListResponse) :
  JS.truthy (token (session (store e))) = true ->
  requests (exec (fetchTasks listing) e)
  = listRequest (token (session (store e))) (with_loadingTasks (local e) true)
    :: requests e.
Proof.
  intros H. destruct listing as [data | err].
  - rewrite fetchTasks_resolved by exact H. reflexivity.
  - rewrite fetchTasks_rejected by exact H. reflexivity.
Qed.

(** The first request of the page, with the empty search term, has no
    [search] parameter. *)
Lemma C2_counterexample :
  exists r,
    requests (exec (fetchTasks (Resolved (mkListResponse [] 0))) mounted) = [r]
    /\ query r = [("page", "1"); ("pageSize", "10")]
    /\ ~ carries_whole_query (local mounted) r.
Proof.
  eexists. split; [reflexivity |]. split; [reflexivity |].
  intros (_ & _ & _ & _ & H). discriminate H.
Qed.

(** C2, amended: the list request has no status parameter under [all] and
    the status of the filter otherwise; it always has the page and the page
    size; it has the search term exactly when the term is not empty. *)
Theorem C2_list_query (e : Env Local) (listing : AxiosResult ListResponse) :
  JS.truthy (token (session (store e))) = true ->
  exists r,
    requests (exec (fetchTasks listing) e) = r :: requests e
    /\ method r = GET
    /\ url r = "http://localhost:3333/task"
    /\ get "page" (query r) = Some (JS.Number_toString (currentPage (local e)))
    /\ get "pageSize" (query r)
       = Some (JS.Number_toString (pageSize (local e)))
    /\ get "search" (query r)
       = match searchTerm (local e) with
         | "" => None
         | _ => Some (searchTerm (local e))
         end
    /\ get "status" (query r)
       = match filterStatus (local e) with
         | all => None
         | only s => Some (Status_value s)
         end.
Proof.
  intros H. eexists. split; [apply fetchTasks_request; exact H |].
  split; [reflexivity |]. split; [reflexivity |].
  exact (listParams_get (with_loadingTasks (local e) true)).
Qed.

Lemma C2_list_query_witness :
  exists r,
    requests (exec (fetchTasks (Resolved (mkListResponse [] 0)))
                   (mkEnv (store mounted) [] [] [] []
                          (with_filterStatus
                             (with_searchTerm initialLocal "milk")
                             (only ANDAMENTO)))) = [r]
    /\ get "search" (query r) = Some "milk"
    /\ get "status" (query r) = Some "ANDAMENTO".
Proof.
  destruct (C2_list_query
              (mkEnv (store mounted) [] [] [] []
                     (with_filterStatus (with_searchTerm initialLocal "milk")
                                        (only ANDAMENTO)))
              (Resolved (mkListResponse [] 0)) eq_refl)
    as (r & Hr & _ & _ & _ & _ & Hs & Hf).
  exists r. split; [exact Hr | split; [exact Hs | exact Hf]].
Defined.

(** ** Task list: rejected mutations *)

(** A rejected POST: a console line and a toast, nothing else. *)
Lemma handleCreateTask_rejected (e : Env Local) (values : CreateTaskFormValues)
    (err : AxiosError) (listing : AxiosResult ListResponse) :
  exec (handleCreateTask values (Rejected err) listing) e
  = mkEnv (store e) (pushed e)
          (ToastError (JS.orElse (errorMessage err) "Erro ao criar tarefa.")
             :: toasts e)
          ("Erro ao criar tarefa:" :: consoleErrors e)
          (createRequest (token (session (store e))) values :: requests e)
          (local e).
Proof. destruct e. reflexivity. Qed.

(** A rejected PUT, for a task being edited. *)
Lemma handleUpdateTask_rejected (e : Env Local) (task : Task)
    (values : UpdateTaskFormValues) (err : AxiosError)
    (listing : AxiosResult ListResponse) :
  editingTask (local e) = Some task ->
  exec (handleUpdateTask values (Rejected err) listing) e
  = mkEnv (store e) (pushed e)
          (ToastError (JS.orElse (errorMessage err) "Erro ao atualizar tarefa.")
             :: toasts e)
          ("Erro ao atualizar tarefa:" :: consoleErrors e)
          (updateRequest (token (session (store e))) task values :: requests e)
          (local e).
Proof.
  destruct e as [st ps ts cs rs lo]. unfold exec. cbn.
  intros H. rewrite H. reflexivity.
Qed.

(** Without a task being edited [handleUpdateTask] returns at once. *)
Lemma handleUpdateTask_idle (e : Env Local) (values : UpdateTaskFormValues)
    (updated : AxiosResult unit) (listing : AxiosResult ListResponse) :
  editingTask (local e) = None ->
  exec (handleUpdateTask values updated listing) e = e.
Proof.
  destruct e as [st ps ts cs rs lo]. unfold exec. cbn.
  intros H. rewrite H. reflexivity.
Qed.

(** A rejected DELETE, for a selected task. *)
Lemma handleDeleteTask_rejected (e : Env Local) (taskId : string)
    (err : AxiosError) (listing : AxiosResult ListResponse) :
  taskToDelete (local e) = Some taskId ->
  JS.truthy (Some taskId) = true ->
  exec (handleDeleteTask (Rejected err) listing) e
  = mkEnv (store e) (pushed e)
          (ToastError (JS.orElse (errorMessage err) "Erro ao excluir tarefa.")
             :: toasts e)
          ("Erro ao excluir tarefa:" :: consoleErrors e)
          (deleteRequest (token (session (store e))) taskId :: requests e)
          (local e).
Proof.
  destruct e as [st ps ts cs rs lo]. unfold exec. cbn.
  intros H Hid. rewrite H.
  destruct taskId as [|c s]; [discriminate Hid | reflexivity].
Qed.

(** Without a selected task [handleDeleteTask] returns at once. *)
Lemma handleDeleteTask_idle (e : Env Local) (deleted : AxiosResult unit)
    (listing : AxiosResult ListResponse) :
  JS.truthy (taskToDelete (local e)) = false ->
  exec (handleDeleteTask deleted listing) e = e.
Proof.
  destruct e as [st ps ts cs rs lo]. unfold exec. cbn. intros H.
  destruct (taskToDelete lo) as [[|c s]|]; try discriminate H; reflexivity.
Qed.

(** A rejected login: a toast, and the loading flag lowered. *)
Lemma onSubmit_rejected (e : Env LoginPage.Local) (values : LoginFormValues)
    (err : AxiosError) :
  exec (LoginPage.onSubmit values (Rejected err)) e
  = mkEnv (store e) (pushed e)
          (ToastError (JS.orElse (errorMessage err)
                                 "Erro ao fazer login. Tente novamente.")
             :: toasts e)
          (consoleErrors e)
          (LoginPage.loginRequest values :: requests e)
          (LoginPage.mkLocal false).
Proof. destruct e. reflexivity. Qed.

(** Whatever the error, a rejected mutation keeps the store and the
    router. *)
Lemma mutations_keep_session (e : Env Local) (err : AxiosError)
    (listing : AxiosResult ListResponse) (cv : CreateTaskFormValues)
    (uv : UpdateTaskFormValues) :
  let e1 := exec (handleCreateTask cv (Rejected err) listing) e in
  let e2 := exec (handleUpdateTask uv (Rejected err) listing) e in
  let e3 := exec (handleDeleteTask (Rejected err) listing) e in
  (store e1 = store e /\ pushed e1 = pushed e)
  /\ (store e2 = store e /\ pushed e2 = pushed e)
  /\ (store e3 = store e /\ pushed e3 = pushed e).
Proof.
  cbv zeta. split; [| split].
  - rewrite handleCreateTask_rejected. split; reflexivity.
  - destruct (editingTask (local e)) as [task|] eqn:E.
    + rewrite (handleUpdateTask_rejected e task) by exact E. split; reflexivity.
    + rewrite handleUpdateTask_idle by exact E. split; reflexivity.
  - destruct (taskToDelete (local e)) as [[|c s]|] eqn:E.
    + rewrite handleDeleteTask_idle by (rewrite E; reflexivity).
      split; reflexivity.
    + rewrite (handleDeleteTask_rejected e (String c s)) by (exact E || reflexivity).
      split; reflexivity.
    + rewrite handleDeleteTask_idle by (rewrite E; reflexivity).
      split; reflexivity.
Qed.

(** The list request does clear the session and go to the login view on a
    401. *)
Lemma fetchTasks_unauthorized (e : Env Local) :
  JS.truthy (token (session (store e))) = true ->
  let e' := exec (fetchTasks (Rejected unauthorized)) e in
  session (store e') = {| token := None; user := None |}
  /\ pushed e' = "/login" :: pushed e.
Proof.
  intros H e'. subst e'. rewrite fetchTasks_rejected by exact H.
  split; reflexivity.
Qed.

(** C1, as the code has it: a 401 on the POST, the PUT or the DELETE of the
    task list leaves the token and the user in the store and the router
    where it was, while the same 401 on the list request clears the session
    and goes to ["/login"]. *)
Theorem C1_mutations_keep_session_on_401 :
  let cv := {| c_title := "Buy milk"; c_description := None |} in
  let uv := {| u_id := Some "id123"; u_title := Some "Buy milk";
               u_description := None; u_status := Some CONCLUIDO |} in
  let ok := Resolved (mkListResponse [] 0) in
  let e1 := exec (handleCreateTask cv (Rejected unauthorized) ok) busy in
  let e2 := exec (handleUpdateTask uv (Rejected unauthorized) ok) busy in
  let e3 := exec (handleDeleteTask (Rejected unauthorized) ok) busy in
  let e4 := exec (fetchTasks (Rejected unauthorized)) busy in
  (requests e1 = [createRequest (Some "t1") cv]
   /\ session (store e1) = {| token := Some "t1"; user := Some someUser |}
   /\ pushed e1 = [])
  /\ (requests e2 = [updateRequest (Some "t1") someTask uv]
      /\ session (store e2) = {| token := Some "t1"; user := Some someUser |}
      /\ pushed e2 = [])
  /\ (requests e3 = [deleteRequest (Some "t1") "id123"]
      /\ session (store e3) = {| token := Some "t1"; user := Some someUser |}
      /\ pushed e3 = [])
  /\ (session (store e4) = {| token := None; user := None |}
      /\ pushed e4 = ["/login"]).
Proof.
  cbv zeta. repeat split.
Qed.

(** ** Request errors other than 401 *)

(** C8: a rejection that is not a 401, on login, list, create, update or
    delete, leaves the store and the router as they were; what it adds is
    one error toast, with the message of the server or the fallback of the
    operation (no toast where the handler returns before any request). *)
Theorem C8_request_error_keeps_session (err : AxiosError) :
  is401 err = false ->
  (forall (e : Env LoginPage.Local) (values : LoginFormValues),
      let e' := exec (LoginPage.onSubmit values (Rejected err)) e in
      store e' = store e /\ pushed e' = pushed e
      /\ toasts e'
         = ToastError (JS.orElse (errorMessage err)
                                 "Erro ao fazer login. Tente novamente.")
           :: toasts e)
  /\ (forall e : Env Local,
         let e' := exec (fetchTasks (Rejected err)) e in
         store e' = store e /\ pushed e' = pushed e
         /\ tasks (local e') = tasks (local e)
         /\ totalTasks (local e') = totalTasks (local e)
         /\ toasts e'
            = if JS.truthy (token (session (store e)))
              then ToastError (JS.orElse (errorMessage err)
                                         "Erro ao carregar tarefas.")
                   :: toasts e
              else toasts e)
  /\ (forall (e : Env Local) (values : CreateTaskFormValues)
             (listing : AxiosResult ListResponse),
         let e' := exec (handleCreateTask values (Rejected err) listing) e in
         store e' = store e /\ pushed e' = pushed e /\ local e' = local e
         /\ toasts e'
            = ToastError (JS.orElse (errorMessage err) "Erro ao criar tarefa.")
              :: toasts e)
  /\ (forall (e : Env Local) (values : UpdateTaskFormValues)
             (listing : AxiosResult ListResponse),
         let e' := exec (handleUpdateTask values (Rejected err) listing) e in
         store e' = store e /\ pushed e' = pushed e /\ local e' = local e
         /\ toasts e'
            = if JS.truthyObj (editingTask (local e))
              then ToastError (JS.orElse (errorMessage err)
                                         "Erro ao atualizar tarefa.")
                   :: toasts e
              else toasts e)
  /\ (forall (e : Env Local) (listing : AxiosResult ListResponse),
         let e' := exec (handleDeleteTask (Rejected err) listing) e in
         store e' = store e /\ pushed e' = pushed e /\ local e' = local e
         /\ toasts e'
            = if JS.truthy (taskToDelete (local e))
              then ToastError (JS.orElse (errorMessage err)
                                         "Erro ao excluir tarefa.")
                   :: toasts e
              else toasts e).
Proof.
  intros Hnot. repeat apply conj; intros; subst e'.
  - rewrite onSubmit_rejected. repeat split.
  - destruct (JS.truthy (token (session (store e)))) eqn:T.
    + rewrite fetchTasks_rejected by exact T. rewrite Hnot.
      destruct e as [st ps ts cs rs []]. repeat split.
    + rewrite fetchTasks_falsy by exact T.
      destruct e as [st ps ts cs rs []]. repeat split.
  - rewrite handleCreateTask_rejected. repeat split.
  - destruct (editingTask (local e)) as [task|] eqn:E.
    + rewrite (handleUpdateTask_rejected e task) by exact E. repeat split.
    + rewrite handleUpdateTask_idle by exact E. repeat split.
  - destruct (taskToDelete (local e)) as [[|c s]|] eqn:E.
    + rewrite handleDeleteTask_idle by (rewrite E; reflexivity). repeat split.
    + rewrite (handleDeleteTask_rejected e (String c s))
        by (exact E || reflexivity).
      repeat split.
    + rewrite handleDeleteTask_idle by (rewrite E; reflexivity). repeat split.
Qed.

Lemma C8_request_error_keeps_session_witness :
  let e' := exec (handleDeleteTask (Rejected serverError)
                                   (Resolved (mkListResponse [] 0))) busy in
  store e' = store busy /\ pushed e' = []
  /\ toasts e' = [ToastError "Internal error"].
Proof.
  pose proof (C8_request_error_keeps_session serverError eq_refl) as H.
  destruct H as (_ & _ & _ & _ & H).
  specialize (H busy (Resolved (mkListResponse [] 0))). cbv zeta in H.
  destruct H as (H1 & H2 & _ & H4).
  split; [exact H1 | split; [exact H2 | exact H4]].
Defined.

(** ** Task list: creating a task *)

(** A resolved POST: the toast, the reset, the dialog closed, and then one
    run of [fetchTasks]. *)
Lemma handleCreateTask_resolved (e : Env Local) (values : CreateTaskFormValues)
    (listing : AxiosResult ListResponse) :
  exec (handleCreateTask values (Resolved tt) listing) e
  = exec (fetchTasks listing) (created_and_closed e values).
Proof. destruct e. reflexivity. Qed.





(** ** Pagination *)

(** [Math.ceil] of a quotient of integers, in integer arithmetic. *)
Lemma Math_ceil_div_Z (a b : Z) : JS.Math_ceil_div a b = - ((- a) / b).
Proof.
  unfold JS.Math_ceil_div, Qceiling. f_equal.
  rewrite (Zdiv_Qdiv (- a) b). apply Qfloor_comp.
  rewrite inject_Z_opp. unfold Qdiv. ring.
Qed.

(** The ceiling of [a / b] is the one integer [n] with
    [(n - 1) * b < a <= n * b]. *)
Lemma Math_ceil_div_spec (a b : Z) :
  0 < b ->
  (JS.Math_ceil_div a b - 1) * b < a <= JS.Math_ceil_div a b * b.
Proof.
  intros Hb. rewrite Math_ceil_div_Z.
  pose proof (Z.div_mod (- a) b ltac:(lia)) as Hdm.
  pose proof (Z.mod_pos_bound (- a) b Hb) as Hm.
  nia.
Qed.




Lemma previousPage_eq (e : Env Local) :
  previousPage e = Z.max 1 (currentPage (local e) - 1).
Proof. destruct e as [st ps ts cs rs []]. reflexivity. Qed.

Lemma nextPage_eq (e : Env Local) :
  nextPage e = Z.min (totalPages (local e)) (currentPage (local e) + 1).
Proof. destruct e as [st ps ts cs rs []]. reflexivity. Qed.

(** The previous control is disabled exactly on page 1, the next control
    exactly on the last page. *)
Lemma PaginationPrevious_disabled (l : Local) :
  disabled (PaginationPrevious_props l) = (currentPage l =? 1).
Proof.
  unfold disabled, PaginationPrevious_props. cbn.
  destruct (currentPage l =? 1); reflexivity.
Qed.

Lemma PaginationNext_disabled (l : Local) :
  disabled (PaginationNext_props l) = (currentPage l =? totalPages l).
Proof.
  unfold disabled, PaginationNext_props. cbn.
  destruct (currentPage l =? totalPages l); reflexivity.
Qed.

(** C6: on a page between 1 and [totalPages], the previous control gives
    [max(1, page - 1)] and the next control [min(totalPages, page + 1)];
    both stay between 1 and [totalPages]; on page 1 the previous control is
    disabled and stays on page 1, on the last page the next control is
    disabled and stays on the last page. *)
Theorem C6_pagination_controls (e : Env Local) :
  1 <= currentPage (local e) <= totalPages (local e) ->
  let page := currentPage (local e) in
  let last := totalPages (local e) in
  previousPage e = Z.max 1 (page - 1)
  /\ nextPage e = Z.min last (page + 1)
  /\ 1 <= previousPage e <= last
  /\ 1 <= nextPage e <= last
  /\ disabled (PaginationPrevious_props (local e)) = (page =? 1)
  /\ disabled (PaginationNext_props (local e)) = (page =? last)
  /\ (page = 1 -> previousPage e = 1)
  /\ (page = last -> nextPage e = last).
Proof.
  intros Hin page last. subst page last.
  rewrite previousPage_eq, nextPage_eq.
  rewrite PaginationPrevious_disabled, PaginationNext_disabled.
  repeat split; lia.
Qed.

Lemma C6_pagination_controls_witness :
  previousPage lastPage = 2
  /\ nextPage lastPage = 3
  /\ disabled (PaginationPrevious_props (local lastPage)) = false
  /\ disabled (PaginationNext_props (local lastPage)) = true.
Proof.
  destruct (C6_pagination_controls lastPage ltac:(vm_compute; split; discriminate))
    as (H1 & H2 & _ & _ & H5 & H6 & _).
  split; [exact H1 | split; [exact H2 | split; [exact H5 | exact H6]]].
Defined.

(** * Further properties of the code *)

(** ** Session store: sequences of mutations *)

Lemma mutate_persists (s : Store) (m : Mutation) :
  localStorage (mutate s m)
  = (storageName, session (mutate s m)) :: localStorage s.
Proof. destruct m; reflexivity. Qed.

Lemma mutations_snoc (ms : list Mutation) (m : Mutation) (s : Store) :
  mutations (ms ++ [m]) s = mutate (mutations ms s) m.
Proof. unfold mutations. rewrite fold_left_app. reflexivity. Qed.

(** X1: every mutation of the store writes the state it leaves, under the
    one key: a sequence of mutations only adds writes, one each, all under
    ["auth-storage"], and the latest write is the current session. *)
Theorem store_persists_every_mutation (ms : list Mutation) (s : Store) :
  (exists written,
      localStorage (mutations ms s) = (written ++ localStorage s)%list
      /\ List.length written = List.length ms
      /\ Forall (fun kv => fst kv = storageName) written)
  /\ (forall m,
         localStorage (mutations (ms ++ [m]) s)
         = (storageName, session (mutations (ms ++ [m]) s))
             :: localStorage (mutations ms s)).
Proof.
  split.
  - revert s. induction ms as [|m ms IH]; intros s.
    + exists []. repeat split. constructor.
    + destruct (IH (mutate s m)) as (w & Hw & Hl & Hk).
      exists (w ++ [(storageName, session (mutate s m))])%list.
      cbn [mutations fold_left]. fold (mutations ms (mutate s m)).
      rewrite Hw, mutate_persists, <- app_assoc. split; [reflexivity |].
      split.
      * rewrite length_app, Hl. cbn. lia.
      * apply Forall_app. split; [exact Hk |].
        constructor; [reflexivity | constructor].
  - intros m. rewrite mutations_snoc. apply mutate_persists.
Qed.

(** X2: whatever the store went through, [clearAuth] leaves the empty
    session, and the two writes of a login, in either order, leave exactly
    the token and the user written. *)
Theorem store_overwrites_history (ms : list Mutation) (s : Store)
    (t : option string) (u : option User) :
  session (mutations (ms ++ [ClearAuth]) s) = initial
  /\ session (mutations (ms ++ [SetToken t; SetUser u]) s)
     = {| token := t; user := u |}
  /\ session (mutations (ms ++ [SetUser u; SetToken t]) s)
     = {| token := t; user := u |}.
Proof.
  unfold mutations. rewrite !fold_left_app. repeat split.
Qed.

(** ** Session guard: the branches of [verifyAuth] *)

Ltac guard_cases e :=
  destruct e as [[[tok usr] sto] ps ts cs rs [ld]];
  destruct tok as [[|c t]|]; destruct usr as [u|].

(** X3: without a usable token the guard asks the API nothing: it goes to
    ["/login"], says that a login is needed, keeps the store and renders
    nothing. *)
Theorem guard_without_token (e : Env ProtectedLayout.Local)
    (profile : AxiosResult User) :
  JS.truthy (token (session (store e))) = false ->
  let e' := exec (ProtectedLayout.verifyAuth profile) e in
  e' = mkEnv (store e) ("/login" :: pushed e)
             (ToastError "Você precisa estar logado para acessar esta página."
                :: toasts e)
             (consoleErrors e) (requests e) (ProtectedLayout.mkLocal false)
  /\ ProtectedLayout.render e' = ProtectedLayout.Nothing.
Proof.
  guard_cases e; cbn; intros H; try discriminate H; split; reflexivity.
Qed.

Lemma guard_without_token_witness :
  let e := mkEnv (mkStore (mkAuth (Some "") (Some someUser)) []) [] [] [] []
                 (ProtectedLayout.mkLocal true) in
  let e' := exec (ProtectedLayout.verifyAuth (Resolved someUser)) e in
  requests e' = [] /\ pushed e' = ["/login"]
  /\ ProtectedLayout.render e' = ProtectedLayout.Nothing.
Proof.
  destruct (guard_without_token
              (mkEnv (mkStore (mkAuth (Some "") (Some someUser)) []) [] [] [] []
                     (ProtectedLayout.mkLocal true))
              (Resolved someUser) eq_refl) as (H1 & H2).
  cbv zeta. split; [| split].
  - exact (f_equal requests H1).
  - exact (f_equal pushed H1).
  - exact H2.
Defined.

(** X4: with a token and no cached user, a resolved profile request caches
    the user it returns and keeps the token; the one request carries the
    bearer token; nothing is pushed or toasted, and the children are
    rendered. *)
Theorem guard_profile_success (e : Env ProtectedLayout.Local) (data : User) :
  JS.truthy (token (session (store e))) = true ->
  user (session (store e)) = None ->
  let e' := exec (ProtectedLayout.verifyAuth (Resolved data)) e in
  session (store e')
  = {| token := token (session (store e)); user := Some data |}
  /\ requests e'
     = ProtectedLayout.profileRequest (token (session (store e))) :: requests e
  /\ authorization (ProtectedLayout.profileRequest (token (session (store e))))
     = Some ("Bearer " ++ JS.template (token (session (store e))))
  /\ pushed e' = pushed e
  /\ toasts e' = toasts e
  /\ ProtectedLayout.render e' = ProtectedLayout.Children.
Proof.
  guard_cases e; cbn; intros H1 H2; try discriminate H1; try discriminate H2.
  repeat split.
Qed.

Lemma guard_profile_success_witness :
  let e := mkEnv (mkStore (mkAuth (Some "t1") None) []) [] [] [] []
                 (ProtectedLayout.mkLocal true) in
  let e' := exec (ProtectedLayout.verifyAuth (Resolved someUser)) e in
  session (store e') = {| token := Some "t1"; user := Some someUser |}
  /\ ProtectedLayout.render e' = ProtectedLayout.Children.
Proof.
  destruct (guard_profile_success
              (mkEnv (mkStore (mkAuth (Some "t1") None) []) [] [] [] []
                     (ProtectedLayout.mkLocal true))
              someUser eq_refl eq_refl) as (H1 & _ & _ & _ & _ & H6).
  split; [exact H1 | exact H6].
Defined.

(** X5: the guard decides in one run.  It never stays on the loading
    indicator; it sends the profile request exactly when there is a token
    and no cached user; it renders the children exactly when there is a
    token and the user is cached or the profile request resolved; and it
    goes to ["/login"], once, exactly when it does not render them. *)
Theorem guard_decides (e : Env ProtectedLayout.Local)
    (profile : AxiosResult User) :
  let e' := exec (ProtectedLayout.verifyAuth profile) e in
  let tok := JS.truthy (token (session (store e))) in
  let cached := JS.truthyObj (user (session (store e))) in
  ProtectedLayout.loading (local e') = false
  /\ requests e'
     = (if tok && negb cached
        then ProtectedLayout.profileRequest (token (session (store e)))
               :: requests e
        else requests e)
  /\ authorized e' = tok && (cached || resolved profile)
  /\ pushed e' = (if authorized e' then pushed e else "/login" :: pushed e).
Proof.
  guard_cases e; destruct profile as [d | err]; repeat split.
Qed.

(** X6: when the effect of the guard runs again, as it does after the
    store changed, the second run sends no request and keeps the store and
    the decision of the first. *)
Theorem guard_second_run (e : Env ProtectedLayout.Local)
    (first second : AxiosResult User) :
  let e1 := exec (ProtectedLayout.verifyAuth first) e in
  let e2 := exec (ProtectedLayout.verifyAuth second) e1 in
  requests e2 = requests e1
  /\ store e2 = store e1
  /\ authorized e2 = authorized e1.
Proof.
  guard_cases e; destruct first as [d | err]; repeat split.
Qed.

(** ** Login form *)

(** X7: a login that resolves with a token that is not empty is accepted
    by the guard of the protected root without a profile request and without
    a further navigation; with an empty token the guard does not render the
    page. *)
Theorem login_then_guard (e : Env LoginPage.Local) (values : LoginFormValues)
    (resp : LoginPage.LoginResponse) (profile : AxiosResult User) :
  let e1 := exec (LoginPage.onSubmit values (Resolved resp)) e in
  let g := exec (ProtectedLayout.verifyAuth profile)
                (mount (ProtectedLayout.mkLocal true) e1) in
  authorized g = JS.truthy (Some (LoginPage.r_token resp))
  /\ requests g = LoginPage.loginRequest values :: requests e
  /\ pushed g
     = (if JS.truthy (Some (LoginPage.r_token resp))
        then "/" :: pushed e
        else "/login" :: "/" :: pushed e).
Proof.
  destruct e as [st ps ts cs rs lo]. destruct resp as [[|c t] u];
    destruct profile; repeat split.
Qed.

(** The submission without validation errors is [onSubmit]. *)
Lemma login_form_onSubmit_gate (isEmail : string -> bool)
    (e : Env LoginPage.Local) (values : LoginFormValues)
    (login : AxiosResult LoginPage.LoginResponse) :
  exec (LoginPage.form_onSubmit isEmail values login) e
  = if isEmail (l_email values) && (6 <=? String.length (l_password values))%nat
    then exec (LoginPage.onSubmit values login) e
    else e.
Proof.
  unfold LoginPage.form_onSubmit, LoginPage.loginFormSchema.
  destruct (isEmail (l_email values) && _); [reflexivity |].
  destruct e. reflexivity.
Qed.

(** X8: the login form sends nothing when the e-mail is refused or the
    password has fewer than 6 characters; otherwise it sends one POST with
    the values as they are and no [Authorization] header, whatever the
    outcome, and leaves the submit button enabled. *)
Theorem login_submission (isEmail : string -> bool)
    (e : Env LoginPage.Local) (values : LoginFormValues)
    (login : AxiosResult LoginPage.LoginResponse) :
  let e' := exec (LoginPage.form_onSubmit isEmail values login) e in
  (isEmail (l_email values) = false
   \/ (String.length (l_password values) < 6)%nat -> e' = e)
  /\ (isEmail (l_email values) = true ->
      (6 <= String.length (l_password values))%nat ->
      requests e'
      = {| method := POST; url := "http://localhost:3333/user/login";
           query := []; authorization := None; body := LoginBody values |}
          :: requests e
      /\ LoginPage.submitDisabled e' = false).
Proof.
  cbv zeta. rewrite login_form_onSubmit_gate. split.
  - intros [H | H].
    + rewrite H. reflexivity.
    + destruct (Nat.leb_spec 6 (String.length (l_password values))); [lia |].
      rewrite andb_false_r. reflexivity.
  - intros He Hp. rewrite He.
    destruct (Nat.leb_spec 6 (String.length (l_password values))); [| lia].
    destruct e as [st ps ts cs rs lo]. destruct login; split; reflexivity.
Qed.

Lemma login_submission_witness :
  let e := mkEnv (mkStore initial []) [] [] [] [] (LoginPage.mkLocal false) in
  exec (LoginPage.form_onSubmit looksLikeEmail (mkLogin "a@b.com" "12345")
                                (Rejected serverError)) e = e
  /\ requests (exec (LoginPage.form_onSubmit looksLikeEmail
                       (mkLogin "a@b.com" "123456") (Rejected serverError)) e)
     = [LoginPage.loginRequest (mkLogin "a@b.com" "123456")].
Proof.
  cbv zeta. split.
  - apply (login_submission looksLikeEmail
             (mkEnv (mkStore initial []) [] [] [] [] (LoginPage.mkLocal false))
             (mkLogin "a@b.com" "12345") (Rejected serverError)).
    right. cbn. lia.
  - apply (login_submission looksLikeEmail
             (mkEnv (mkStore initial []) [] [] [] [] (LoginPage.mkLocal false))
             (mkLogin "a@b.com" "123456") (Rejected serverError)).
    + reflexivity.
    + cbn. lia.
Defined.

(** ** Registration form *)

Lemma trimStart_split (s : string) :
  exists a, s = a ++ JS.trimStart s /\ allWhite a = true
            /\ isWhite (firstChar (JS.trimStart s)) = false.
Proof.
  induction s as [|c r IH].
  - exists "". repeat split.
  - cbn [JS.trimStart]. destruct (JS.isWhiteSpace c) eqn:W.
    + destruct IH as (a & Ha & Hw & Hf). exists (String c a).
      cbn [String.append allWhite]. rewrite <- Ha, W, Hw. repeat split. exact Hf.
    + exists "". repeat split. exact W.
Qed.

Lemma trimEnd_split (s : string) :
  exists b, s = JS.trimEnd s ++ b /\ allWhite b = true
            /\ isWhite (lastChar (JS.trimEnd s)) = false.
Proof.
  induction s as [|c r IH].
  - exists "". repeat split.
  - destruct IH as (b & Hb & Hw & Hl). cbn [JS.trimEnd].
    destruct (JS.trimEnd r) as [|c' k] eqn:E.
    + cbn [String.append] in Hb. subst b.
      destruct (JS.isWhiteSpace c) eqn:W.
      * exists (String c r). cbn [String.append allWhite]. rewrite W, Hw.
        repeat split.
      * exists r. repeat split; [exact Hw | exact W].
    + exists b. cbn [String.append]. rewrite Hb at 1. cbn [String.append].
      repeat split; [exact Hw | exact Hl].
Qed.

Lemma trimStart_fixed (s : string) :
  isWhite (firstChar s) = false -> JS.trimStart s = s.
Proof.
  destruct s as [|c r]; [reflexivity |]. cbn. intros ->. reflexivity.
Qed.

Lemma trimEnd_fixed (s : string) :
  isWhite (lastChar s) = false -> JS.trimEnd s = s.
Proof.
  induction s as [|c r IH]; [reflexivity |].
  destruct r as [|c' r'].
  - cbn. intros ->. reflexivity.
  - intros H. change (lastChar (String c (String c' r')))
      with (lastChar (String c' r')) in H.
    cbn [JS.trimEnd]. cbn [JS.trimEnd] in IH. rewrite (IH H). reflexivity.
Qed.

Lemma trimEnd_first (s : string) :
  isWhite (firstChar s) = false ->
  isWhite (firstChar (JS.trimEnd s)) = false.
Proof.
  destruct s as [|c r]; [reflexivity |]. cbn [firstChar isWhite JS.trimEnd].
  intros W. destruct (JS.trimEnd r); [rewrite W |]; exact W.
Qed.

(** [trim] takes white space off both ends and nothing else. *)
Lemma trim_split (s : string) :
  exists a b, s = a ++ JS.trim s ++ b
              /\ allWhite a = true /\ allWhite b = true
              /\ isWhite (firstChar (JS.trim s)) = false
              /\ isWhite (lastChar (JS.trim s)) = false.
Proof.
  destruct (trimStart_split s) as (a & Ha & Hwa & Hf).
  destruct (trimEnd_split (JS.trimStart s)) as (b & Hb & Hwb & Hl).
  exists a, b. unfold JS.trim. rewrite <- Hb.
  repeat split; try assumption. apply trimEnd_first. exact Hf.
Qed.

Lemma trim_idempotent (s : string) : JS.trim (JS.trim s) = JS.trim s.
Proof.
  destruct (trim_split s) as (a & b & _ & _ & _ & Hf & Hl).
  unfold JS.trim at 1. rewrite (trimStart_fixed _ Hf). apply trimEnd_fixed.
  exact Hl.
Qed.

(** X9: the name that [registerFormSchema] returns is the name given
    without the white space at its two ends, and nothing else changes: the
    name given is white space, then the name returned, then white space; the
    name returned neither starts nor ends with white space and has 3
    characters or more; e-mail and password are as given; and parsing the
    values returned gives them back. *)
Theorem register_schema_trims_name (isEmail : string -> bool)
    (v parsed : RegisterPage.RegisterFormValues) :
  RegisterPage.registerFormSchema isEmail v = Some parsed ->
  (exists a b,
      RegisterPage.r_name v = a ++ RegisterPage.r_name parsed ++ b
      /\ allWhite a = true /\ allWhite b = true)
  /\ isWhite (firstChar (RegisterPage.r_name parsed)) = false
  /\ isWhite (lastChar (RegisterPage.r_name parsed)) = false
  /\ (3 <= String.length (RegisterPage.r_name parsed))%nat
  /\ RegisterPage.r_email parsed = RegisterPage.r_email v
  /\ RegisterPage.r_password parsed = RegisterPage.r_password v
  /\ RegisterPage.registerFormSchema isEmail parsed = Some parsed.
Proof.
  unfold RegisterPage.registerFormSchema. cbv zeta.
  destruct (3 <=? String.length (JS.trim (RegisterPage.r_name v)))%nat eqn:Hn;
    [| discriminate].
  destruct (isEmail (RegisterPage.r_email v)) eqn:He; [| discriminate].
  destruct (6 <=? String.length (RegisterPage.r_password v))%nat eqn:Hp;
    [| discriminate].
  cbn [andb]. intros [= <-]. cbn [RegisterPage.r_name RegisterPage.r_email
                                    RegisterPage.r_password].
  destruct (trim_split (RegisterPage.r_name v)) as (a & b & Hs & Ha & Hb & Hf & Hl).
  split; [exists a, b; repeat split; assumption |].
  split; [exact Hf |]. split; [exact Hl |].
  split; [apply Nat.leb_le; exact Hn |]. split; [reflexivity |].
  split; [reflexivity |].
  rewrite trim_idempotent, Hn, He, Hp. reflexivity.
Qed.

Lemma register_schema_trims_name_witness :
  RegisterPage.registerFormSchema looksLikeEmail
    (RegisterPage.mkRegister "  Ana Lima " "a@b.com" "123456")
  = Some (RegisterPage.mkRegister "Ana Lima" "a@b.com" "123456")
  /\ RegisterPage.registerFormSchema looksLikeEmail
       (RegisterPage.mkRegister "Ana Lima" "a@b.com" "123456")
     = Some (RegisterPage.mkRegister "Ana Lima" "a@b.com" "123456").
Proof.
  split; [reflexivity |].
  apply (register_schema_trims_name looksLikeEmail
           (RegisterPage.mkRegister "  Ana Lima " "a@b.com" "123456")
           (RegisterPage.mkRegister "Ana Lima" "a@b.com" "123456") eq_refl).
Defined.

(** What [onSubmit] of the registration page leaves, by outcome. *)
Lemma register_onSubmit_resolved (e : Env RegisterPage.Local)
    (values : RegisterPage.RegisterFormValues) :
  exec (RegisterPage.onSubmit values (Resolved tt)) e
  = mkEnv (store e) (pushed e)
          (ToastSuccess "Cadastro realizado com sucesso!" :: toasts e)
          (consoleErrors e) (requests e)
          (RegisterPage.mkLocal
             false RegisterPage.defaultValues
             ("Registration successful:" :: RegisterPage.consoleLog (local e))
             (("http://localhost:3333/user/register", values)
                :: RegisterPage.posted (local e))).
Proof. destruct e as [st ps ts cs rs []]. reflexivity. Qed.

Lemma register_onSubmit_rejected (e : Env RegisterPage.Local)
    (values : RegisterPage.RegisterFormValues) (err : AxiosError) :
  exec (RegisterPage.onSubmit values (Rejected err)) e
  = mkEnv (store e) (pushed e)
          (ToastError (JS.orElse (errorMessage err)
                                 "Erro ao cadastrar. Tente novamente.")
             :: toasts e)
          (consoleErrors e) (requests e)
          (RegisterPage.mkLocal
             false (RegisterPage.form (local e))
             (RegisterPage.consoleLog (local e))
             (("http://localhost:3333/user/register", values)
                :: RegisterPage.posted (local e))).
Proof. destruct e as [st ps ts cs rs []]. reflexivity. Qed.

(** X10: a registration never logs the user in and never navigates: store
    and router are as before, whatever the outcome.  It posts once; when the
    POST resolves the form is back to its empty default values, when it is
    rejected the form keeps what was typed; either way the submit button is
    enabled again and one toast is shown. *)
Theorem register_keeps_session (e : Env RegisterPage.Local)
    (values : RegisterPage.RegisterFormValues)
    (registered : AxiosResult unit) :
  let e' := exec (RegisterPage.onSubmit values registered) e in
  store e' = store e
  /\ pushed e' = pushed e
  /\ RegisterPage.posted (local e')
     = ("http://localhost:3333/user/register", values)
         :: RegisterPage.posted (local e)
  /\ RegisterPage.submitDisabled e' = false
  /\ RegisterPage.form (local e')
     = (if resolved registered then RegisterPage.defaultValues
        else RegisterPage.form (local e))
  /\ exists t, toasts e' = t :: toasts e
               /\ t = match registered with
                      | Resolved _ =>
                          ToastSuccess "Cadastro realizado com sucesso!"
                      | Rejected err =>
                          ToastError
                            (JS.orElse (errorMessage err)
                                       "Erro ao cadastrar. Tente novamente.")
                      end.
Proof.
  cbv zeta. destruct registered as [[] | err].
  - rewrite register_onSubmit_resolved. repeat split. eexists. split; reflexivity.
  - rewrite register_onSubmit_rejected. repeat split. eexists. split; reflexivity.
Qed.

Lemma register_form_onSubmit_gate (isEmail : string -> bool)
    (e : Env RegisterPage.Local) (registered : AxiosResult unit) :
  exec (RegisterPage.form_onSubmit isEmail registered) e
  = match RegisterPage.registerFormSchema isEmail (RegisterPage.form (local e))
    with
    | Some parsed => exec (RegisterPage.onSubmit parsed registered) e
    | None => e
    end.
Proof.
  destruct e as [st ps ts cs rs lo].
  unfold exec, RegisterPage.form_onSubmit.
  cbn -[RegisterPage.registerFormSchema RegisterPage.onSubmit].
  destruct (RegisterPage.registerFormSchema isEmail (RegisterPage.form lo));
    reflexivity.
Qed.

(** X11: the registration form posts nothing when the name without the
    white space at its ends has fewer than 3 characters, when the e-mail is
    refused, or when the password has fewer than 6 characters; otherwise the
    body posted holds the trimmed name, and the e-mail and the password as
    typed. *)
Theorem register_submission (isEmail : string -> bool)
    (e : Env RegisterPage.Local) (registered : AxiosResult unit) :
  let v := RegisterPage.form (local e) in
  let e' := exec (RegisterPage.form_onSubmit isEmail registered) e in
  ((String.length (JS.trim (RegisterPage.r_name v)) < 3)%nat
   \/ isEmail (RegisterPage.r_email v) = false
   \/ (String.length (RegisterPage.r_password v) < 6)%nat ->
   e' = e)
  /\ ((3 <= String.length (JS.trim (RegisterPage.r_name v)))%nat ->
      isEmail (RegisterPage.r_email v) = true ->
      (6 <= String.length (RegisterPage.r_password v))%nat ->
      RegisterPage.posted (local e')
      = ("http://localhost:3333/user/register",
         {| RegisterPage.r_name := JS.trim (RegisterPage.r_name v);
            RegisterPage.r_email := RegisterPage.r_email v;
            RegisterPage.r_password := RegisterPage.r_password v |})
          :: RegisterPage.posted (local e)).
Proof.
  cbv zeta. rewrite register_form_onSubmit_gate.
  unfold RegisterPage.registerFormSchema. cbv zeta.
  destruct (Nat.leb_spec 3 (String.length
                              (JS.trim (RegisterPage.r_name
                                          (RegisterPage.form (local e))))));
    destruct (isEmail (RegisterPage.r_email (RegisterPage.form (local e))));
    destruct (Nat.leb_spec 6 (String.length
                                (RegisterPage.r_password
                                   (RegisterPage.form (local e)))));
    cbn [andb]; split;
    try (intros [Hn | [He | Hp]]; (reflexivity || lia || discriminate));
    try (intros Hn He Hp; (lia || discriminate)).
  intros _ _ _. destruct registered as [[] | err].
  - rewrite register_onSubmit_resolved. reflexivity.
  - rewrite register_onSubmit_rejected. reflexivity.
Qed.

Lemma register_submission_witness :
  let page name :=
    mkEnv (mkStore initial []) [] [] [] []
          (RegisterPage.mkLocal
             false (RegisterPage.mkRegister name "a@b.com" "123456") [] []) in
  exec (RegisterPage.form_onSubmit looksLikeEmail (Resolved tt))
       (page "  ab     ")
  = page "  ab     "
  /\ RegisterPage.posted
       (local (exec (RegisterPage.form_onSubmit looksLikeEmail (Resolved tt))
                    (page "  Ana Lima ")))
     = [("http://localhost:3333/user/register",
         RegisterPage.mkRegister "Ana Lima" "a@b.com" "123456")].
Proof.
  cbv zeta. split.
  - apply (register_submission looksLikeEmail
             (mkEnv (mkStore initial []) [] [] [] []
                    (RegisterPage.mkLocal
                       false
                       (RegisterPage.mkRegister "  ab     " "a@b.com" "123456")
                       [] []))
             (Resolved tt)).
    left. vm_compute. lia.
  - apply (register_submission looksLikeEmail
             (mkEnv (mkStore initial []) [] [] [] []
                    (RegisterPage.mkLocal
                       false
                       (RegisterPage.mkRegister "  Ana Lima " "a@b.com" "123456")
                       [] []))
             (Resolved tt)).
    + vm_compute. lia.
    + reflexivity.
    + vm_compute. lia.
Defined.

(** ** Task list: resolved mutations *)

(** The requests a run of [fetchTasks] adds. *)
Lemma fetchTasks_requests (e : Env Local) (listing : AxiosResult ListResponse) :
  requests (exec (fetchTasks listing) e)
  = if JS.truthy (token (session (store e)))
    then listRequest (token (session (store e))) (local e) :: requests e
    else requests e.
Proof.
  destruct (JS.truthy (token (session (store e)))) eqn:T.
  - rewrite fetchTasks_request by exact T.
    destruct e as [st ps ts cs rs []]. reflexivity.
  - rewrite fetchTasks_falsy by exact T. reflexivity.
Qed.

Lemma fetchTasks_local (e : Env Local) (listing : AxiosResult ListResponse) :
  untouched_by_fetch (local e) (local (exec (fetchTasks listing) e))
  /\ loadingTasks (local (exec (fetchTasks listing) e)) = false.
Proof.
  destruct (JS.truthy (token (session (store e)))) eqn:T.
  - destruct listing as [data | err].
    + rewrite fetchTasks_resolved by exact T.
      destruct e as [st ps ts cs rs []]. repeat split.
    + rewrite fetchTasks_rejected by exact T.
      destruct e as [st ps ts cs rs []]. repeat split.
  - rewrite fetchTasks_falsy by exact T.
    destruct e as [st ps ts cs rs []]. repeat split.
Qed.

(** X12: [fetchTasks] always ends with the loading flag lowered and sends at
    most one request; it replaces the tasks and the total exactly when the
    token is usable and the request resolved; and whatever the outcome it
    leaves the page, the page size, the search term, the filter, the dialogs,
    the selections and the forms as they were. *)
Theorem fetchTasks_frame (e : Env Local) (listing : AxiosResult ListResponse) :
  let e' := exec (fetchTasks listing) e in
  let tok := JS.truthy (token (session (store e))) in
  loadingTasks (local e') = false
  /\ requests e'
     = (if tok then listRequest (token (session (store e))) (local e)
                      :: requests e
        else requests e)
  /\ (tasks (local e'), totalTasks (local e'))
     = match listing with
       | Resolved data =>
           if tok then (items data, totalItems data)
           else (tasks (local e), totalTasks (local e))
       | Rejected _ => (tasks (local e), totalTasks (local e))
       end
  /\ untouched_by_fetch (local e) (local e').
Proof.
  cbv zeta. split; [apply fetchTasks_local |].
  split; [apply fetchTasks_requests |].
  split; [| apply fetchTasks_local].
  destruct (JS.truthy (token (session (store e)))) eqn:T.
  - destruct listing as [data | err].
    + rewrite fetchTasks_resolved by exact T. reflexivity.
    + rewrite fetchTasks_rejected by exact T.
      destruct e as [st ps ts cs rs []]. reflexivity.
  - rewrite fetchTasks_falsy by exact T.
    destruct e as [st ps ts cs rs []]. destruct listing; reflexivity.
Qed.

(** X13: the effect of the page sends the list request exactly when a user
    is cached and the token is usable; without a cached user it does
    nothing at all. *)
Theorem effect_fetches_when_logged_in (e : Env Local)
    (listing : AxiosResult ListResponse) :
  let e' := exec (useEffect_fetchTasks listing) e in
  requests e'
  = (if JS.truthyObj (user (session (store e)))
        && JS.truthy (token (session (store e)))
     then listRequest (token (session (store e))) (local e) :: requests e
     else requests e)
  /\ (if JS.truthyObj (user (session (store e)))
      then e' = exec (fetchTasks listing) e
      else e' = e).
Proof.
  cbv zeta.
  assert (G : exec (useEffect_fetchTasks listing) e
              = if JS.truthyObj (user (session (store e)))
                then exec (fetchTasks listing) e else e).
  { destruct e as [[[tok [u|]] sto] ps ts cs rs lo]; reflexivity. }
  rewrite G. destruct (JS.truthyObj (user (session (store e)))).
  - split; [apply fetchTasks_requests | reflexivity].
  - split; reflexivity.
Qed.

(** X14: once a list request was rejected with 401, the page asks the API
    for nothing more: the effect, which runs again because the token
    changed, and a further call of [fetchTasks] both leave everything as it
    is. *)
Theorem no_refetch_after_401 (e : Env Local) (err : AxiosError)
    (again : AxiosResult ListResponse) :
  JS.truthy (token (session (store e))) = true ->
  is401 err = true ->
  let e1 := exec (fetchTasks (Rejected err)) e in
  session (store e1) = initial
  /\ exec (useEffect_fetchTasks again) e1 = e1
  /\ exec (fetchTasks again) e1 = e1.
Proof.
  intros T H. cbv zeta. rewrite fetchTasks_rejected by exact T. rewrite H.
  destruct e as [[[tok usr] sto] ps ts cs rs []]. repeat split.
Qed.

Lemma no_refetch_after_401_witness :
  let e1 := exec (fetchTasks (Rejected unauthorized)) busy in
  session (store e1) = initial
  /\ exec (useEffect_fetchTasks (Resolved (mkListResponse [someTask] 1))) e1
     = e1.
Proof.
  destruct (no_refetch_after_401 busy unauthorized
                                 (Resolved (mkListResponse [someTask] 1))
                                 eq_refl eq_refl) as (H1 & H2 & _).
  split; [exact H1 | exact H2].
Defined.

(** A resolved DELETE, for a selected task: the toast, the dialog closed,
    the selection cleared, and then one run of [fetchTasks]. *)
Lemma handleDeleteTask_resolved (e : Env Local) (taskId : string)
    (listing : AxiosResult ListResponse) :
  taskToDelete (local e) = Some taskId ->
  JS.truthy (Some taskId) = true ->
  exec (handleDeleteTask (Resolved tt) listing) e
  = exec (fetchTasks listing)
         (mkEnv (store e) (pushed e)
                (ToastSuccess "Tarefa excluída com sucesso!" :: toasts e)
                (consoleErrors e)
                (deleteRequest (token (session (store e))) taskId :: requests e)
                (with_taskToDelete
                   (with_isConfirmingDelete (local e) false) None)).
Proof.
  destruct e as [st ps ts cs rs lo]. unfold exec. cbn.
  intros H Hid. rewrite H.
  destruct taskId as [|c s]; [discriminate Hid | reflexivity].
Qed.

(** A resolved PUT, for a task being edited. *)
Lemma handleUpdateTask_resolved (e : Env Local) (task : Task)
    (values : UpdateTaskFormValues) (listing : AxiosResult ListResponse) :
  editingTask (local e) = Some task ->
  exec (handleUpdateTask values (Resolved tt) listing) e
  = exec (fetchTasks listing)
         (mkEnv (store e) (pushed e)
                (ToastSuccess "Tarefa atualizada com sucesso!" :: toasts e)
                (consoleErrors e)
                (updateRequest (token (session (store e))) task values
                   :: requests e)
                (with_editingTask (with_isEditing (local e) false) None)).
Proof.
  destruct e as [st ps ts cs rs lo]. unfold exec. cbn.
  intros H. rewrite H. reflexivity.
Qed.

(** X15: picking a task for deletion opens the confirmation with that
    task selected and sends nothing; confirming then sends DELETE to
    [/task/<id>], and when it resolves the dialog is closed, the selection is
    cleared and the list is fetched once.  With an empty id the
    confirmation sends nothing and the dialog stays open. *)
Theorem delete_after_confirmation (e : Env Local) (c : Ascii.ascii)
    (rest : string) (listing : AxiosResult ListResponse) :
  let taskId := String c rest in
  let tok := token (session (store e)) in
  let e0 := exec (handleDeleteConfirmation taskId) e in
  let e1 := exec (handleDeleteTask (Resolved tt) listing) e0 in
  let empty := exec (handleDeleteConfirmation "") e in
  (requests e0 = requests e
   /\ isConfirmingDelete (local e0) = true
   /\ taskToDelete (local e0) = Some taskId)
  /\ (requests e1
      = ((if JS.truthy tok then [listRequest tok (local e)] else [])
         ++ {| method := DELETE; url := "http://localhost:3333/task/" ++ taskId;
               query := []; authorization := Some (JS.bearer tok);
               body := NoBody |} :: requests e)%list
      /\ isConfirmingDelete (local e1) = false
      /\ taskToDelete (local e1) = None)
  /\ (forall deleted, exec (handleDeleteTask deleted listing) empty = empty)
  /\ isConfirmingDelete (local empty) = true.
Proof.
  cbv zeta. split; [| split; [| split]].
  - destruct e as [st ps ts cs rs []]. repeat split.
  - rewrite (handleDeleteTask_resolved _ (String c rest))
      by (destruct e as [st ps ts cs rs []]; reflexivity).
    rewrite fetchTasks_requests.
    destruct (fetchTasks_local
                (mkEnv (store (exec (handleDeleteConfirmation (String c rest)) e))
                       (pushed (exec (handleDeleteConfirmation (String c rest)) e))
                       (ToastSuccess "Tarefa excluída com sucesso!"
                          :: toasts (exec (handleDeleteConfirmation (String c rest)) e))
                       (consoleErrors (exec (handleDeleteConfirmation (String c rest)) e))
                       (deleteRequest
                          (token (session (store (exec (handleDeleteConfirmation (String c rest)) e))))
                          (String c rest)
                          :: requests (exec (handleDeleteConfirmation (String c rest)) e))
                       (with_taskToDelete
                          (with_isConfirmingDelete
                             (local (exec (handleDeleteConfirmation (String c rest)) e))
                             false) None))
                listing) as ((_ & _ & _ & H4 & H5 & _) & _).
    rewrite H4, H5.
    destruct e as [[[tok usr] sto] ps ts cs rs []].
    cbn. destruct (JS.truthy tok); repeat split.
  - intros deleted. apply handleDeleteTask_idle.
    destruct e as [st ps ts cs rs []]. reflexivity.
  - destruct e as [st ps ts cs rs []]. reflexivity.
Qed.

(** X16: opening the edit dialog on a task fills the form with the id,
    the title, the description and the status of that task and sends
    nothing; saving then sends PUT to [/task/<id of that task>] with the
    values submitted, whatever id those values hold, and when it resolves
    the dialog is closed, the task being edited is cleared and the list is
    fetched once. *)
Theorem update_after_edit (e : Env Local) (task : Task)
    (values : UpdateTaskFormValues) (listing : AxiosResult ListResponse) :
  let tok := token (session (store e)) in
  let e0 := exec (handleEditTask task) e in
  let e1 := exec (handleUpdateTask values (Resolved tt) listing) e0 in
  (requests e0 = requests e
   /\ isEditing (local e0) = true
   /\ editingTask (local e0) = Some task
   /\ updateTaskForm (local e0)
      = {| u_id := Some (t_id task); u_title := Some (t_title task);
           u_description := Some (t_description task);
           u_status := Some (t_status task) |})
  /\ (requests e1
      = ((if JS.truthy tok then [listRequest tok (local e)] else [])
         ++ {| method := PUT; url := "http://localhost:3333/task/" ++ t_id task;
               query := []; authorization := Some (JS.bearer tok);
               body := UpdateBody values |} :: requests e)%list
      /\ isEditing (local e1) = false
      /\ editingTask (local e1) = None).
Proof.
  cbv zeta. split.
  - destruct e as [st ps ts cs rs []]. repeat split.
  - rewrite (handleUpdateTask_resolved _ task)
      by (destruct e as [st ps ts cs rs []]; reflexivity).
    rewrite fetchTasks_requests.
    destruct (fetchTasks_local
                (mkEnv (store (exec (handleEditTask task) e))
                       (pushed (exec (handleEditTask task) e))
                       (ToastSuccess "Tarefa atualizada com sucesso!"
                          :: toasts (exec (handleEditTask task) e))
                       (consoleErrors (exec (handleEditTask task) e))
                       (updateRequest
                          (token (session (store (exec (handleEditTask task) e))))
                          task values
                          :: requests (exec (handleEditTask task) e))
                       (with_editingTask
                          (with_isEditing (local (exec (handleEditTask task) e))
                                          false) None))
                listing) as ((_ & H2 & H3 & _) & _).
    rewrite H2, H3.
    destruct e as [[[tok usr] sto] ps ts cs rs []].
    cbn. destruct (JS.truthy tok); repeat split.
Qed.

(** X17: the handlers that create, update and delete do not look at the
    token: with a null token each still sends its request, with the header
    [Authorization: Bearer null], and the list is then not fetched, whatever
    the outcome. *)
Theorem mutations_without_token (e : Env Local) (values : CreateTaskFormValues)
    (uvalues : UpdateTaskFormValues) (task : Task) (c : Ascii.ascii)
    (rest : string) (outcome : AxiosResult unit)
    (listing : AxiosResult ListResponse) :
  token (session (store e)) = None ->
  editingTask (local e) = Some task ->
  taskToDelete (local e) = Some (String c rest) ->
  requests (exec (handleCreateTask values outcome listing) e)
  = {| method := POST; url := "http://localhost:3333/task"; query := [];
       authorization := Some "Bearer null"; body := CreateBody values |}
      :: requests e
  /\ requests (exec (handleUpdateTask uvalues outcome listing) e)
     = {| method := PUT; url := "http://localhost:3333/task/" ++ t_id task;
          query := []; authorization := Some "Bearer null";
          body := UpdateBody uvalues |} :: requests e
  /\ requests (exec (handleDeleteTask outcome listing) e)
     = {| method := DELETE;
          url := "http://localhost:3333/task/" ++ String c rest;
          query := []; authorization := Some "Bearer null"; body := NoBody |}
         :: requests e.
Proof.
  intros Htok Hedit Hdel. destruct outcome as [[] | err]; repeat apply conj.
  - rewrite handleCreateTask_resolved, fetchTasks_requests.
    unfold created_and_closed. cbn [store requests]. rewrite Htok. reflexivity.
  - rewrite (handleUpdateTask_resolved e task) by exact Hedit.
    rewrite fetchTasks_requests. cbn [store requests]. rewrite Htok.
    reflexivity.
  - rewrite (handleDeleteTask_resolved e (String c rest))
      by (exact Hdel || reflexivity).
    rewrite fetchTasks_requests. cbn [store requests]. rewrite Htok.
    reflexivity.
  - rewrite handleCreateTask_rejected, Htok. reflexivity.
  - rewrite (handleUpdateTask_rejected e task) by exact Hedit.
    rewrite Htok. reflexivity.
  - rewrite (handleDeleteTask_rejected e (String c rest))
      by (exact Hdel || reflexivity).
    rewrite Htok. reflexivity.
Qed.

Lemma mutations_without_token_witness :
  let e := mkEnv (mkStore initial []) [] [] [] [] (local busy) in
  requests (exec (handleDeleteTask (Resolved tt)
                                   (Resolved (mkListResponse [] 0))) e)
  = [{| method := DELETE; url := "http://localhost:3333/task/id123";
        query := []; authorization := Some "Bearer null"; body := NoBody |}].
Proof.
  destruct (mutations_without_token
              (mkEnv (mkStore initial []) [] [] [] [] (local busy))
              (mkCreate "Buy milk" None) (mkUpdate None None None None)
              someTask (Ascii.ascii_of_nat 105) "d123" (Resolved tt)
              (Resolved (mkListResponse [] 0)) eq_refl eq_refl eq_refl)
    as (_ & _ & H).
  exact H.
Defined.

(** X18: logging out empties the session in one write and goes to
    ["/login"]; after it the page fetches nothing, and the guard, whose
    effect runs again, sends nothing and does not render the protected
    page. *)
Theorem logout_ends_session (e : Env Local)
    (again : AxiosResult ListResponse) (profile : AxiosResult User)
    (guard : ProtectedLayout.Local) :
  let e1 := exec handleLogout e in
  let g := exec (ProtectedLayout.verifyAuth profile) (mount guard e1) in
  session (store e1) = initial
  /\ localStorage (store e1) = (storageName, initial) :: localStorage (store e)
  /\ pushed e1 = "/login" :: pushed e
  /\ requests (exec (fetchTasks again) e1) = requests e
  /\ requests (exec (useEffect_fetchTasks again) e1) = requests e
  /\ requests g = requests e
  /\ authorized g = false.
Proof.
  destruct e as [[[tok usr] sto] ps ts cs rs []]. destruct guard.
  repeat split.
Qed.

(** ** Task list: what is rendered *)

(** X19: with a page size above 0, the pagination controls are rendered
    exactly when the table of tasks is shown and there are more tasks in
    total than fit on one page. *)
Theorem pagination_shown_iff (l : Local) :
  0 < pageSize l ->
  (paginationRendered l = true
   <-> taskSection l = TaskTable /\ pageSize l < totalTasks l).
Proof.
  intros Hs. unfold paginationRendered, taskSection, totalPages.
  pose proof (Math_ceil_div_spec (totalTasks l) (pageSize l) Hs) as Hc.
  destruct (loadingTasks l); [split; [discriminate | intros [H _]; discriminate H] |].
  destruct (List.length (tasks l) =? 0)%nat;
    [split; [discriminate | intros [H _]; discriminate H] |].
  rewrite Z.ltb_lt. split.
  - intros H. split; [reflexivity | nia].
  - intros [_ H]. nia.
Qed.

Lemma pagination_shown_iff_witness :
  paginationRendered (local lastPage) = true
  <-> taskSection (local lastPage) = TaskTable
      /\ pageSize (local lastPage) < totalTasks (local lastPage).
Proof.
  apply (pagination_shown_iff (local lastPage)). reflexivity.
Defined.





(** The next and the previous control keep everything but the page. *)
Lemma clickNext_page (e : Env Local) :
  currentPage (local (clickNext e))
  = Z.min (totalPages (local e)) (currentPage (local e) + 1)
  /\ totalPages (local (clickNext e)) = totalPages (local e).
Proof. destruct e as [st ps ts cs rs []]. split; reflexivity. Qed.

Lemma clickPrevious_page (e : Env Local) :
  currentPage (local (clickPrevious e))
  = Z.max 1 (currentPage (local e) - 1)
  /\ totalPages (local (clickPrevious e)) = totalPages (local e).
Proof. destruct e as [st ps ts cs rs []]. split; reflexivity. Qed.

(** X21: from a page between 1 and [totalPages], [k] clicks on the next
    control lead to page [min(totalPages, page + k)] and [k] clicks on the
    previous control to page [max(1, page - k)]: repeated clicks stop at the
    last and at the first page. *)
Theorem repeated_clicks (e : Env Local) (k : nat) :
  1 <= currentPage (local e) <= totalPages (local e) ->
  currentPage (local (Nat.iter k clickNext e))
  = Z.min (totalPages (local e)) (currentPage (local e) + Z.of_nat k)
  /\ currentPage (local (Nat.iter k clickPrevious e))
     = Z.max 1 (currentPage (local e) - Z.of_nat k).
Proof.
  intros Hin. split.
  - assert (H : currentPage (local (Nat.iter k clickNext e))
                = Z.min (totalPages (local e))
                        (currentPage (local e) + Z.of_nat k)
                /\ totalPages (local (Nat.iter k clickNext e))
                   = totalPages (local e)).
    { induction k as [|k [IHp IHt]].
      - cbn [Nat.iter nat_rect]. split; [lia | reflexivity].
      - rewrite Nat.iter_succ.
        destruct (clickNext_page (Nat.iter k clickNext e)) as [Hp Ht].
        rewrite Hp, Ht, IHp, IHt. split; [lia | reflexivity]. }
    exact (proj1 H).
  - induction k as [|k IH].
    + cbn [Nat.iter nat_rect]. lia.
    + rewrite Nat.iter_succ.
      destruct (clickPrevious_page (Nat.iter k clickPrevious e)) as [Hp _].
      rewrite Hp, IH. lia.
Qed.

Lemma repeated_clicks_witness :
  currentPage (local (Nat.iter 5 clickPrevious lastPage)) = 1
  /\ currentPage (local (Nat.iter 5 clickNext lastPage)) = 3.
Proof.
  assert (Hin : 1 <= currentPage (local lastPage) <= totalPages (local lastPage))
    by (vm_compute; split; discriminate).
  destruct (repeated_clicks lastPage 5 Hin) as [Hn Hp].
  split.
  - etransitivity; [exact Hp | vm_compute; reflexivity].
  - etransitivity; [exact Hn | vm_compute; reflexivity].
Defined.

(** Keys written out are told apart, and found in a list, by computation. *)
Ltac distinct_keys :=
  repeat (constructor;
          [cbn [In]; intros Hin; decompose [or] Hin;
           (discriminate || contradiction) |]);
  constructor.

Ltac known_keys :=
  repeat (constructor; [cbn [In]; tauto |]); constructor.

(** X22: the list request has between 2 and 4 parameters, no parameter
    twice, the page and the page size first, and no parameter besides
    [page], [pageSize], [search] and [status]. *)
Theorem list_query_keys (l : Local) :
  NoDup (List.map fst (listParams l))
  /\ (2 <= List.length (listParams l) <= 4)%nat
  /\ firstn 2 (List.map fst (listParams l)) = ["page"; "pageSize"]
  /\ Forall (fun k => In k ["page"; "pageSize"; "search"; "status"])
            (List.map fst (listParams l)).
Proof.
  rewrite listParams_eq.
  destruct (searchTerm l) as [|c s]; destruct (filterStatus l) as [|st];
    cbn [List.map List.app fst List.length firstn];
    (split; [distinct_keys |]);
    (split; [lia |]); (split; [reflexivity |]);
    known_keys.
Qed.

(** ** Task list: the edit form *)

Lemma updateTaskForm_onSubmit_gate (isUuid : string -> bool) (e : Env Local)
    (updated : AxiosResult unit) (listing : AxiosResult ListResponse) :
  exec (updateTaskForm_onSubmit isUuid updated listing) e
  = match updateTaskSchema isUuid (updateTaskForm (local e)) with
    | Some parsed => exec (handleUpdateTask parsed updated listing) e
    | None => e
    end.
Proof.
  destruct e as [st ps ts cs rs lo].
  unfold exec, updateTaskForm_onSubmit.
  cbn -[updateTaskSchema handleUpdateTask].
  destruct (updateTaskSchema isUuid (updateTaskForm lo)); reflexivity.
Qed.

(** X23: the edit form as first mounted, which has no id, submits
    nothing.  Once the dialog was opened on a task, submitting the form as
    filled in sends the PUT exactly when the id of the task passes the UUID
    check and its title has 3 characters or more; the body is then the four
    fields of the task. *)
Theorem update_submission (isUuid : string -> bool) (e : Env Local)
    (task : Task) (updated : AxiosResult unit)
    (listing : AxiosResult ListResponse) :
  let tok := token (session (store e)) in
  let opened := exec (handleEditTask task) e in
  let sent := exec (updateTaskForm_onSubmit isUuid updated listing) opened in
  (updateTaskForm (local e) = updateTaskForm_defaultValues ->
   exec (updateTaskForm_onSubmit isUuid updated listing) e = e)
  /\ (isUuid (t_id task) && (3 <=? String.length (t_title task))%nat = false ->
      sent = opened)
  /\ (isUuid (t_id task) && (3 <=? String.length (t_title task))%nat = true ->
      exists after,
        requests sent
        = (after
           ++ {| method := PUT; url := "http://localhost:3333/task/" ++ t_id task;
                 query := []; authorization := Some (JS.bearer tok);
                 body := UpdateBody
                           {| u_id := Some (t_id task);
                              u_title := Some (t_title task);
                              u_description := Some (t_description task);
                              u_status := Some (t_status task) |} |}
           :: requests e)%list).
Proof.
  cbv zeta. split; [| split].
  - intros Hd. rewrite updateTaskForm_onSubmit_gate, Hd. reflexivity.
  - intros Hno. rewrite updateTaskForm_onSubmit_gate.
    destruct e as [st ps ts cs rs []]. cbn. unfold updateTaskSchema.
    cbn. cbn in Hno. rewrite Hno. reflexivity.
  - intros Hyes. rewrite updateTaskForm_onSubmit_gate.
    assert (Hs : updateTaskSchema isUuid
                   (updateTaskForm (local (exec (handleEditTask task) e)))
                 = Some {| u_id := Some (t_id task);
                           u_title := Some (t_title task);
                           u_description := Some (t_description task);
                           u_status := Some (t_status task) |}).
    { destruct e as [st ps ts cs rs []]. unfold updateTaskSchema.
      cbn. cbn in Hyes. rewrite Hyes. reflexivity. }
    rewrite Hs. destruct updated as [[] | err].
    + rewrite (handleUpdateTask_resolved _ task)
        by (destruct e as [st ps ts cs rs []]; reflexivity).
      rewrite fetchTasks_requests.
      destruct e as [[[tok usr] sto] ps ts cs rs []].
      destruct tok as [[|c0 t0]|]; [exists [] | eexists [_] | exists []];
        reflexivity.
    + rewrite (handleUpdateTask_rejected _ task)
        by (destruct e as [st ps ts cs rs []]; reflexivity).
      exists []. destruct e as [st ps ts cs rs []]. reflexivity.
Qed.

Lemma update_submission_witness :
  exec (updateTaskForm_onSubmit hasUuidLength (Resolved tt)
                                (Resolved (mkListResponse [] 0))) mounted
  = mounted
  /\ exec (updateTaskForm_onSubmit hasUuidLength (Resolved tt)
                                   (Resolved (mkListResponse [] 0)))
          (exec (handleEditTask someTask) mounted)
     = exec (handleEditTask someTask) mounted
  /\ exists after,
       requests (exec (updateTaskForm_onSubmit
                         hasUuidLength (Rejected serverError)
                         (Resolved (mkListResponse [] 0)))
                      (exec (handleEditTask storedTask) mounted))
       = (after
          ++ [updateRequest (Some "t1") storedTask
                {| u_id := Some (t_id storedTask);
                   u_title := Some "Buy milk";
                   u_description := Some "2 litres";
                   u_status := Some ANDAMENTO |}])%list.
Proof.
  split; [| split].
  - apply (update_submission hasUuidLength mounted someTask (Resolved tt)
                             (Resolved (mkListResponse [] 0))).
    reflexivity.
  - apply (update_submission hasUuidLength mounted someTask (Resolved tt)
                             (Resolved (mkListResponse [] 0))).
    reflexivity.
  - apply (update_submission hasUuidLength mounted storedTask
                             (Rejected serverError)
                             (Resolved (mkListResponse [] 0))).
    reflexivity.
Defined.
